(** * py2mc-book: text components, pages and books

    A shallow embedding of [src/main.py].  The module builds Minecraft
    text components as Python dicts, collects their renderings in pages,
    and prints a book as the text of a [/give] command.

    Layout of the development:
    - Python data ([value]), its [repr] text and insertion-ordered dicts;
    - the component classes and their [translate] methods;
    - a store of [Page] and [Book] objects with the mutating methods;
    - the properties of the specification, one theorem per claim. *)

From Stdlib Require Import String Ascii List ZArith Lia Bool DecimalString.
Import ListNotations.
Open Scope string_scope.
Set Warnings "-register-all".

(* ================================================================== *)
(** ** Python data *)

(** The plain data a rendered component is made of.  A Python [str] is
    a [string] whose characters are the code points below 256; a dict
    keeps its keys, all strings here, in insertion order.  [VObj] is any
    other object (one that is neither data nor a sequence nor an
    instance of a class of this module), which the program can only
    store and print: it is known by the text its [repr] gives. *)
Inductive value : Type :=
| VNone
| VBool (b : bool)
| VInt (z : Z)
| VStr (s : string)
| VList (l : list value)
| VDict (d : list (string * value))
| VObj (shown : string).

Definition dict : Type := list (string * value).

(** Induction over [value] that reaches into lists and dicts. *)
Section value_induction.
Variable P : value -> Prop.
Hypothesis HNone : P VNone.
Hypothesis HBool : forall b, P (VBool b).
Hypothesis HInt : forall z, P (VInt z).
Hypothesis HStr : forall s, P (VStr s).
Hypothesis HList : forall l, Forall P l -> P (VList l).
Hypothesis HDict : forall d, Forall (fun kv => P (snd kv)) d -> P (VDict d).
Hypothesis HObj : forall r, P (VObj r).

End value_induction.

(** *** Characters and quoting *)

Definition squote : ascii := "039"%char.
Definition dquote : ascii := "034"%char.
Definition backslash : ascii := "092"%char.

Definition chr (c : ascii) : string := String c EmptyString.

Fixpoint str_contains (c : ascii) (s : string) : bool :=
  match s with
  | EmptyString => false
  | String a r => Ascii.eqb a c || str_contains c r
  end.

(** [s.replace(a, b)] for one-character [a] and [b]. *)
Fixpoint str_replace (a b : ascii) (s : string) : string :=
  match s with
  | EmptyString => EmptyString
  | String c r => String (if Ascii.eqb c a then b else c) (str_replace a b r)
  end.

Definition hex_digit (n : nat) : ascii :=
  match n with
  | 0 => "0" | 1 => "1" | 2 => "2" | 3 => "3" | 4 => "4" | 5 => "5"
  | 6 => "6" | 7 => "7" | 8 => "8" | 9 => "9" | 10 => "a" | 11 => "b"
  | 12 => "c" | 13 => "d" | 14 => "e" | _ => "f"
  end%char.

(** CPython's [unicode_repr] on one character, for the quote [q] it
    chose: the quote and the backslash are escaped, tab, newline and
    carriage return get their letter, the other control characters and
    the unprintable part of Latin-1 (0x7f-0xa0 and 0xad) are written
    [\xHH], everything else is copied. *)
Definition repr_char (q c : ascii) : string :=
  let n := nat_of_ascii c in
  if Ascii.eqb c q || Ascii.eqb c backslash then String backslash (chr c)
  else if (n =? 9)%nat then String backslash "t"
  else if (n =? 10)%nat then String backslash "n"
  else if (n =? 13)%nat then String backslash "r"
  else if ((n <? 32) || ((127 <=? n) && (n <=? 160)) || (n =? 173))%nat
       then String backslash
              (String "x" (String (hex_digit (n / 16)) (chr (hex_digit (n mod 16)))))
  else chr c.

Fixpoint repr_chars (q : ascii) (s : string) : string :=
  match s with
  | EmptyString => EmptyString
  | String c r => repr_char q c ++ repr_chars q r
  end.

(** The quote [repr] picks: single, unless the text has a single quote
    and no double quote. *)
Definition repr_quote (s : string) : ascii :=
  if str_contains squote s && negb (str_contains dquote s) then dquote else squote.

Definition repr_str (s : string) : string :=
  let q := repr_quote s in
  String q (repr_chars q s ++ chr q).

Definition repr_int (z : Z) : string := NilZero.string_of_int (Z.to_int z).

(** [repr] of data; [str] of a list or a dict is the same text. *)
Fixpoint py_repr (v : value) : string :=
  match v with
  | VNone => "None"
  | VBool true => "True"
  | VBool false => "False"
  | VInt z => repr_int z
  | VStr s => repr_str s
  | VList l => "[" ++ String.concat ", " (map py_repr l) ++ "]"
  | VDict d =>
      "{" ++ String.concat ", "
               (map (fun kv => match kv with
                               | (k, x) => repr_str k ++ ": " ++ py_repr x
                               end) d) ++ "}"
  | VObj r => r
  end.

(** *** Dicts: insertion-ordered, keyed by strings *)

Fixpoint dict_get (k : string) (d : dict) : option value :=
  match d with
  | [] => None
  | (k', v) :: r => if String.eqb k k' then Some v else dict_get k r
  end.

(** [d[k] = v]: an existing key keeps its place, a new one goes last. *)
Fixpoint dict_set (k : string) (v : value) (d : dict) : dict :=
  match d with
  | [] => [(k, v)]
  | (k', v') :: r =>
      if String.eqb k k' then (k', v) :: r else (k', v') :: dict_set k v r
  end.

(** [{**a, **b}] *)
Definition dict_update (a b : dict) : dict :=
  fold_left (fun acc kv => dict_set (fst kv) (snd kv) acc) b a.

(** A dict display [{k1: v1, k2: v2, ...}]. *)
Definition dict_of (items : list (string * value)) : dict := dict_update [] items.

(** [{k: v for k, v in self.__dict__.items() if v is not None}] over the
    attributes in the order the dataclass assigns them. *)
Definition not_none_items (fields : list (string * option value)) : dict :=
  fold_left (fun acc kv => match snd kv with
                           | Some v => dict_set (fst kv) v acc
                           | None => acc
                           end) fields [].

(* ================================================================== *)
(** ** Exceptions *)

(** The exceptions the module can end in, one constructor per place
    that raises:
    - [ValueError_color c]: [color_error(c)],
      "Color 'c' cannot not be identify and parse";
    - [ValueError_contents]: [HoverEvent.__init__],
      "Invalid contents type: ...";
    - [ValueError_supply]: [add_component] and [add_page],
      "You must supply a `BaseComponent`";
    - [ValueError_element]: [add_component] and [add_page],
      "All element must be subclass on `BaseComponent`";
    - [TypeError_mapping]: the interpreter, on [**x] for an [x] that is
      not a mapping;
    - [TypeError_arguments]: the interpreter, on a call that leaves out
      a required positional argument;
    - [AttributeError a]: the interpreter, on reading an attribute [a]
      the object does not have. *)
Inductive exn : Type :=
| ValueError_color (color : string)
| ValueError_contents
| ValueError_supply
| ValueError_element
| TypeError_mapping
| TypeError_arguments
| AttributeError (name : string).

Inductive res (A : Type) : Type :=
| Ok (a : A)
| Err (e : exn).
Arguments Ok {A} a.
Arguments Err {A} e.

Definition res_bind {A B : Type} (m : res A) (k : A -> res B) : res B :=
  match m with
  | Ok a => k a
  | Err e => Err e
  end.

Declare Scope res_scope.
Delimit Scope res_scope with res.
Notation "x <- m ;; k" := (res_bind m (fun x => k))
  (at level 61, m at next level, right associativity) : res_scope.
Notation "m ;; k" := (res_bind m (fun _ => k))
  (at level 61, right associativity) : res_scope.

(** Truth value of an optional [str]: [None] and [''] are false. *)
Definition truthy_str (o : option string) : bool :=
  match o with
  | Some (String _ _) => true
  | _ => false
  end.

(** [**x] inside a dict display. *)
Definition dict_unpack (x : value) : res dict :=
  match x with
  | VDict d => Ok d
  | _ => Err TypeError_mapping
  end.

(* ================================================================== *)
(** ** Style and events *)

Definition COLOR : list string :=
  ["black"; "dark_blue"; "dark_green"; "dark_red"; "dark_purple"; "gold"; "gray";
   "dark_gray"; "blue"; "green"; "aqua"; "red"; "light_purple"; "yellow"; "white"].

Record StringFormat : Type := mkStringFormat {
  bold : option bool;
  italic : option bool;
  underlined : option bool;
  strikethrough : option bool;
  obfuscated : option bool;
  font : option string
}.

Definition StringFormat_to_dict (self : StringFormat) : dict :=
  not_none_items
    [("bold", option_map VBool (bold self));
     ("italic", option_map VBool (italic self));
     ("underlined", option_map VBool (underlined self));
     ("strikethrough", option_map VBool (strikethrough self));
     ("obfuscated", option_map VBool (obfuscated self));
     ("font", option_map VStr (font self))].

Definition color_error {A : Type} (color : string) : res A :=
  Err (ValueError_color color).

Inductive ClickAction : Type :=
| URL | FILE | RUN_CMD | SUGGEST | CHANGE_PAGE | COPY.

Definition ClickAction_value (a : ClickAction) : string :=
  match a with
  | URL => "open_url"
  | FILE => "open_file"
  | RUN_CMD => "run_command"
  | SUGGEST => "suggest_command"
  | CHANGE_PAGE => "change_page"
  | COPY => "copy_to_clipboard"
  end.

Inductive HoverAction : Type :=
| TEXT | ITEM | ENTITY.

Definition HoverAction_value (a : HoverAction) : string :=
  match a with
  | TEXT => "show_text"
  | ITEM => "show_item"
  | ENTITY => "show_entity"
  end.

Inductive ClickEvent : Type :=
| mkClickEvent (_action : ClickAction) (_value : string).

Definition ClickEvent_to_dict (self : ClickEvent) : dict :=
  match self with
  | mkClickEvent _action _value =>
      dict_of [("action", VStr (ClickAction_value _action)); ("value", VStr _value)]
  end.

(** The two dataclasses a hover event can show.  An entity's [name] is
    a [str] or a [TextComponent] kept as the object it is, never
    rendered: a [VObj] in this model. *)
Inductive Item : Type :=
| mkItem (id : string) (count : option Z) (tag : option value).

Definition Item_to_dict (self : Item) : dict :=
  match self with
  | mkItem id count tag =>
      not_none_items [("id", Some (VStr id)); ("count", option_map VInt count); ("tag", tag)]
  end.

Inductive Entity : Type :=
| mkEntity (type : string) (uuid : string) (name : option value).

Definition Entity_to_dict (self : Entity) : dict :=
  match self with
  | mkEntity type uuid name =>
      not_none_items [("type", Some (VStr type)); ("uuid", Some (VStr uuid)); ("name", name)]
  end.

(* ================================================================== *)
(** ** Components *)

(** The objects of the component classes, by the attributes their
    constructors assign.  [base] holds the four attributes of
    [AnyComponent].  A [HoverEvent] has the attributes [__init__] gave
    it: an attribute that was never assigned is [None] here, and reading
    it raises [AttributeError]. *)
Inductive component : Type :=
| RawComponent (_raw_data : value)
| AnyComponent (b : base)
| TextComponent (_text : string) (b : base)
| TranslatableComponent (_translate : string) (_fallback : option string)
    (_with_json : option component) (b : base)
| ScoreComponent (_name _objective : string) (b : base)
| EntityComponent (_selector : string) (_seperator : option component) (b : base)
| KeybindComponent (_keybind : value) (b : base)
| NbtComponent (_nbt : dict) (b : base)
with base : Type :=
| Base (_color : option string) (_char_attribute : option StringFormat)
    (_hover_event : option HoverEvent) (_click_event : option ClickEvent)
with HoverEvent : Type :=
| mkHoverEvent (_contents : option held) (contents : option Item) (_action : HoverAction)
with held : Type :=
| HeldComponent (c : component)
| HeldItem (i : Item)
| HeldEntity (e : Entity).

Section translate.
Local Open Scope res_scope.

(** [TranslatableComponent.self_translate], over the [translate] of
    the component it may hold.  The method fills [data] and ends
    without a [return]: its result is [None]. *)
Definition TranslatableComponent_self_translate
    (translate : component -> res value)
    (_fallback : option string) (_with_json : option component) : res value :=
  let data : dict := [] in
  let data := if truthy_str _fallback
              then dict_set "fallback" (VStr (match _fallback with Some f => f | None => EmptyString end)) data
              else data in
  data <- match _with_json with
          | Some w => r <- translate w ;; Ok (dict_set "with" r data)
          | None => Ok data
          end ;;
  Ok VNone.

Fixpoint translate (c : component) : res value :=
  match c with
  | RawComponent _raw_data => Ok _raw_data
  | AnyComponent b =>
      data <- AnyComponent_translate b ;; Ok (VDict data)
  | TextComponent _text b =>
      super <- AnyComponent_translate b ;;
      Ok (VDict (dict_update super
                   (dict_of [("text", VStr _text); ("type", VStr "text")])))
  | TranslatableComponent _translate _fallback _with_json b =>
      super <- AnyComponent_translate b ;;
      own <- TranslatableComponent_self_translate translate _fallback _with_json ;;
      extra <- dict_unpack own ;;
      Ok (VDict (dict_update
                   (dict_update super
                      (dict_of [("translate", VStr _translate);
                                ("type", VStr "translatable")]))
                   extra))
  | ScoreComponent _name _objective b =>
      super <- AnyComponent_translate b ;;
      Ok (VDict (dict_update super
                   (dict_of [("score", VDict (dict_of [("name", VStr _name);
                                                       ("objective", VStr _objective)]));
                             ("type", VStr "score")])))
  | EntityComponent _selector _seperator b =>
      super <- AnyComponent_translate b ;;
      let data := dict_update super
                    (dict_of [("type", VStr "selector"); ("selector", VStr _selector)]) in
      match _seperator with
      | Some sep => r <- translate sep ;; Ok (VDict (dict_set "seperator" r data))
      | None => Ok (VDict data)
      end
  | KeybindComponent _keybind b =>
      super <- AnyComponent_translate b ;;
      Ok (VDict (dict_update super
                   (dict_of [("keybind", _keybind); ("type", VStr "keybind")])))
  | NbtComponent _nbt b =>
      super <- AnyComponent_translate b ;;
      Ok (VDict (dict_update (dict_update super (dict_of [("type", VStr "keybind")]))
                   _nbt))
  end

with AnyComponent_translate (b : base) : res dict :=
  match b with
  | Base _color _char_attribute _hover_event _click_event =>
      let data : dict := [] in
      let data := if truthy_str _color
                  then dict_set "color" (VStr (match _color with Some c => c | None => EmptyString end)) data
                  else data in
      data <- match _hover_event with
              | Some h => r <- HoverEvent_to_dict h ;; Ok (dict_set "hoverEvent" r data)
              | None => Ok data
              end ;;
      let data := match _click_event with
                  | Some e => dict_set "clickEvent" (VDict (ClickEvent_to_dict e)) data
                  | None => data
                  end in
      match _char_attribute with
      | Some a => Ok (dict_update data (StringFormat_to_dict a))
      | None => Ok data
      end
  end

(** [HoverEvent.to_dict]; when none of its three tests holds the
    method falls off its end and gives [None]. *)
with HoverEvent_to_dict (h : HoverEvent) : res value :=
  match h with
  | mkHoverEvent _contents _ _action =>
      match _contents with
      | None => Err (AttributeError "_contents")
      | Some (HeldComponent c) =>
          match c with
          | TextComponent _ _ =>
              r <- translate c ;;
              Ok (VDict (dict_of [("action", VStr (HoverAction_value _action));
                                  ("contents", r)]))
          | _ => Ok VNone
          end
      | Some (HeldItem i) =>
          Ok (VDict (dict_of [("action", VStr (HoverAction_value _action));
                              ("contents", VDict (Item_to_dict i))]))
      | Some (HeldEntity e) =>
          Ok (VDict (dict_of [("action", VStr (HoverAction_value _action));
                              ("contents", VDict (Entity_to_dict e))]))
      end
  end.
End translate.

(* ================================================================== *)
(** ** Constructors *)

(** [string.hexdigits] *)
Definition hexdigits : string := "0123456789abcdefABCDEF".

(** The loop [for char in color[1:]: if char not in string.hexdigits:
    color_error(color)]. *)
Fixpoint check_hexdigits (color rest : string) : res unit :=
  match rest with
  | EmptyString => Ok tt
  | String char rest' =>
      if negb (str_contains char hexdigits) then color_error color
      else check_hexdigits color rest'
  end.

(** [color[1:]] *)
Definition str_tail (s : string) : string :=
  match s with
  | EmptyString => EmptyString
  | String _ r => r
  end.

Section constructors.
Local Open Scope res_scope.

(** [AnyComponent.__init__].  The colour arrives as any data; the
    other three arguments are taken as given. *)
Definition AnyComponent___init__ (color : value)
    (attribute : option StringFormat) (hover_event : option HoverEvent)
    (click_event : option ClickEvent) : res base :=
  match color with
  | VNone => Ok (Base None attribute hover_event click_event)
  | VStr s =>
      (if String.prefix "#" s then
         if negb (String.length s =? 7)%nat then color_error s
         else check_hexdigits s (str_tail s)
       else
         if negb (existsb (String.eqb s) COLOR) then color_error s
         else Ok tt) ;;
      Ok (Base (Some s) attribute hover_event click_event)
  | _ => color_error "Unknown Color"
  end.

Definition TextComponent___init__ (text : string) (color : value)
    (attribute : option StringFormat) (hover_event : option HoverEvent)
    (click_event : option ClickEvent) : res component :=
  b <- AnyComponent___init__ color attribute hover_event click_event ;;
  Ok (TextComponent text b).

Definition TranslatableComponent___init__ (translate : string) (color : value)
    (attribute : option StringFormat) (hover_event : option HoverEvent)
    (click_event : option ClickEvent) (fallback : option string)
    (with_json : option component) : res component :=
  b <- AnyComponent___init__ color attribute hover_event click_event ;;
  Ok (TranslatableComponent translate fallback with_json b).

Definition ScoreComponent___init__ (name objective : string) (color : value)
    (attribute : option StringFormat) (hover_event : option HoverEvent)
    (click_event : option ClickEvent) : res component :=
  b <- AnyComponent___init__ color attribute hover_event click_event ;;
  Ok (ScoreComponent name objective b).

Definition EntityComponent___init__ (selector : string) (color : value)
    (attribute : option StringFormat) (hover_event : option HoverEvent)
    (click_event : option ClickEvent) (separator : option component)
    : res component :=
  b <- AnyComponent___init__ color attribute hover_event click_event ;;
  Ok (EntityComponent selector separator b).

Definition KeybindComponent___init__ (keybind : value) (color : value)
    (attribute : option StringFormat) (hover_event : option HoverEvent)
    (click_event : option ClickEvent) : res component :=
  b <- AnyComponent___init__ color attribute hover_event click_event ;;
  Ok (KeybindComponent keybind b).

Definition NbtComponent___init__ (nbt : dict) (color : value)
    (attribute : option StringFormat) (hover_event : option HoverEvent)
    (click_event : option ClickEvent) : res component :=
  b <- AnyComponent___init__ color attribute hover_event click_event ;;
  Ok (NbtComponent nbt b).
End constructors.

(** A component with none of the four optional arguments. *)
Definition plain : base := Base None None None None.

(* ================================================================== *)
(** ** Arguments whose class the code inspects *)

(** What a caller may hand to [HoverEvent], [add_component] or
    [add_page]: data, a component, an item, an entity, a page or a book
    (by reference), or a sequence of such objects written in the call,
    a tuple or a new list that nothing else holds.  (A list object that
    a book holds is passed by its reference, see [Book_add_page_stored].) *)
Inductive pyobj : Type :=
| PVal (v : value)
| PComponent (c : component)
| PItem (i : Item)
| PEntity (e : Entity)
| PPage (ref : nat)
| PBook (ref : nat)
| PSeq (items : list pyobj).

Definition isinstance_BaseComponent (o : pyobj) : bool :=
  match o with
  | PComponent _ => true
  | _ => false
  end.

Definition isinstance_TextComponent (o : pyobj) : bool :=
  match o with
  | PComponent (TextComponent _ _) => true
  | _ => false
  end.

Definition isinstance_Page (o : pyobj) : bool :=
  match o with
  | PPage _ => true
  | _ => false
  end.

(** The items of a [Sequence]: the one-character strings of a [str],
    the elements of a list or tuple; [None] for any other object. *)
Definition sequence_items (o : pyobj) : option (list pyobj) :=
  match o with
  | PVal (VStr s) => Some (map (fun c => PVal (VStr (chr c))) (list_ascii_of_string s))
  | PVal (VList l) => Some (map PVal l)
  | PSeq items => Some items
  | _ => None
  end.

Definition isinstance_Sequence (o : pyobj) : bool :=
  match sequence_items o with
  | Some _ => true
  | None => false
  end.

Definition is_sequence_component (data : pyobj) : bool :=
  match sequence_items data with
  | None => false
  | Some items => forallb isinstance_BaseComponent items
  end.

Definition is_sequence_page (data : pyobj) : bool :=
  match sequence_items data with
  | None => false
  | Some items => forallb isinstance_Page items
  end.

(** [HoverEvent.__init__].  The [Item] branch assigns [self.contents],
    the other two [self._contents]. *)
Definition HoverEvent___init__ (contents : pyobj) : res HoverEvent :=
  match contents with
  | PComponent (TextComponent _ _ as c) =>
      Ok (mkHoverEvent (Some (HeldComponent c)) None TEXT)
  | PItem i => Ok (mkHoverEvent None (Some i) ITEM)
  | PEntity e => Ok (mkHoverEvent (Some (HeldEntity e)) None ENTITY)
  | _ => Err ValueError_contents
  end.

(** [item.translate()] on an object taken from a sequence. *)
Definition call_translate (o : pyobj) : res value :=
  match o with
  | PComponent c => translate c
  | _ => Err (AttributeError "translate")
  end.

(* ================================================================== *)
(** ** The store of pages and books *)

(** [Page] and [Book] objects are mutable and are passed by reference:
    they live in a store and a reference is the index the constructor
    returned.  A page is its [_content] list, which the page creates
    and no one else holds.  The list of pages of a book is an object of
    its own: the book keeps the list it was constructed with, so its
    [_pages] is the reference of a list object, which the caller and
    other books may hold too.  A list object holds references of pages. *)
Record book_obj : Type := mkBook {
  _author : string;
  _title : string;
  _pages : nat
}.

Record store : Type := mkStore {
  page_objs : list (list value);
  book_objs : list book_obj;
  list_objs : list (list nat)
}.

Definition empty_store : store := mkStore [] [] [].

(** Computations that read and change the store and may raise.  What
    was changed before an exception stays changed. *)
Definition M (A : Type) : Type := store -> res A * store.

Definition ret {A : Type} (a : A) : M A := fun s => (Ok a, s).

Definition raise {A : Type} (e : exn) : M A := fun s => (Err e, s).

Definition lift {A : Type} (r : res A) : M A := fun s => (r, s).

Definition bind {A B : Type} (m : M A) (k : A -> M B) : M B :=
  fun s =>
    match m s with
    | (Ok a, s') => k a s'
    | (Err e, s') => (Err e, s')
    end.

Declare Scope store_scope.
Delimit Scope store_scope with store.
Notation "x <- m ;; k" := (bind m (fun x => k))
  (at level 61, m at next level, right associativity) : store_scope.
Notation "m ;; k" := (bind m (fun _ => k))
  (at level 61, right associativity) : store_scope.

(** [for x in items: body(x)] *)
Fixpoint for_each {A : Type} (items : list A) (body : A -> M unit) : M unit :=
  match items with
  | [] => ret tt
  | x :: rest => bind (body x) (fun _ => for_each rest body)
  end.

(** Change the element at one index; an index that is not in the list
    changes nothing (a reference a constructor returned always is). *)
Fixpoint update_at {A : Type} (i : nat) (f : A -> A) (l : list A) : list A :=
  match l, i with
  | [], _ => []
  | x :: r, O => f x :: r
  | x :: r, S j => x :: update_at j f r
  end.

Definition Page__content (self : nat) (s : store) : list value :=
  nth self (page_objs s) [].

Definition Book_obj (self : nat) (s : store) : book_obj :=
  nth self (book_objs s) (mkBook EmptyString EmptyString 0).

(** The items of a list object. *)
Definition List_items (l : nat) (s : store) : list nat :=
  nth l (list_objs s) [].

(** The pages of a book: the items of its list. *)
Definition Book__pages (self : nat) (s : store) : list nat :=
  List_items (_pages (Book_obj self s)) s.

(** A list display [[p, q, ...]]: a new list object. *)
Definition new_list (items : list nat) : M nat :=
  fun s => (Ok (length (list_objs s)),
            mkStore (page_objs s) (book_objs s) (list_objs s ++ [items])%list).

(** [self._content.append(v)] *)
Definition content_append (self : nat) (v : value) : M unit :=
  fun s => (Ok tt, mkStore (update_at self (fun c => (c ++ [v])%list) (page_objs s))
                     (book_objs s) (list_objs s)).

(** [self._pages.append(p)]: the append goes to the list object the
    book holds. *)
Definition pages_append (self : nat) (p : nat) : M unit :=
  fun s =>
    match nth_error (book_objs s) self with
    | Some b =>
        (Ok tt, mkStore (page_objs s) (book_objs s)
                  (update_at (_pages b) (fun l => (l ++ [p])%list) (list_objs s)))
    | None => (Ok tt, s)
    end.

Section Page.
Local Open Scope store_scope.

(** [self._content.append(item.translate())] *)
Definition append_translated (self : nat) (item : pyobj) : M unit :=
  r <- lift (call_translate item) ;; content_append self r.

Definition Page_add_component (self : nat) (other : pyobj) : M nat :=
  (if negb (isinstance_BaseComponent other || isinstance_Sequence other)
   then raise ValueError_supply else ret tt) ;;
  (if isinstance_BaseComponent other
   then append_translated self other
   else ret tt) ;;
  (if isinstance_Sequence other
   then
     if negb (is_sequence_component other) then raise ValueError_element
     else for_each (match sequence_items other with Some l => l | None => [] end)
            (append_translated self)
   else ret tt) ;;
  ret self.

(** [Page.__init__]: a new object whose content is the placeholder,
    then [add_component] on each element of a non-empty [content]. *)
Definition Page___init__ (content : option (list pyobj)) : M nat :=
  self <- (fun s => (Ok (length (page_objs s)),
                     mkStore (page_objs s ++ [[VStr EmptyString]])%list (book_objs s)
                       (list_objs s))) ;;
  match content with
  | Some ((_ :: _) as l) =>
      for_each l (fun component => Page_add_component self component ;; ret tt)
  | _ => ret tt
  end ;;
  ret self.

Definition Page___iadd__ (self : nat) (other : pyobj) : M nat :=
  Page_add_component self other.

(** [Page.__add__] hands the receiver's content, rendered data, to the
    constructor as its [content]. *)
Definition Page___add__ (self : nat) (other : pyobj) : M nat :=
  left <- (fun s => Page___init__ (Some (map PVal (Page__content self s))) s) ;;
  Page_add_component left other.

Definition Page___len__ (self : nat) (s : store) : Z :=
  Z.of_nat (length (Page__content self s)) - 1.

Definition Page_translate (self : nat) (s : store) : string :=
  str_replace squote dquote (py_repr (VList (Page__content self s))).
End Page.

Section Book.
Local Open Scope store_scope.

(** [pages or []]: the list that was passed when it is not empty, a
    new empty list otherwise. *)
Definition pages_or_new (pages : option nat) : M nat :=
  match pages with
  | Some l =>
      fun s => match List_items l s with
               | _ :: _ => (Ok l, s)
               | [] => new_list [] s
               end
  | None => new_list []
  end.

(** [Book.__init__].  [author] and [title] have no default: a call
    that leaves one out ([None] here) is refused by the interpreter.
    [pages] is the reference of a list object, or [None]; the book
    keeps the list itself, not a copy. *)
Definition Book___init__ (author title : option string)
    (pages : option nat) : M nat :=
  match author, title with
  | Some a, Some t =>
      l <- pages_or_new pages ;;
      fun s => (Ok (length (book_objs s)),
                mkStore (page_objs s) (book_objs s ++ [mkBook a t l])%list (list_objs s))
  | _, _ => raise TypeError_arguments
  end.

(** [self._pages.append(item)] for an item that is a page. *)
Definition append_page (self : nat) (item : pyobj) : M unit :=
  match item with
  | PPage p => pages_append self p
  | _ => ret tt
  end.

(** [Book.add_page] on a page, on a sequence written in the call (a
    tuple, a new list), or on any other object. *)
Definition Book_add_page (self : nat) (page : pyobj) : M nat :=
  (if negb (isinstance_Page page || isinstance_Sequence page)
   then raise ValueError_supply else ret tt) ;;
  (if isinstance_Page page then append_page self page else ret tt) ;;
  (if isinstance_Sequence page
   then
     if negb (is_sequence_page page) then raise ValueError_element
     else for_each (match sequence_items page with Some l => l | None => [] end)
            (append_page self)
   else ret tt) ;;
  ret self.

(** The loop [for item in page: self._pages.append(item)] over a list
    object [lst]: the iterator reads the list by position at each
    step, so it sees what the body appended when [lst] is the book's
    own list.  [steps] bounds the number of steps; [None] means they
    were used up before the loop ended. *)
Fixpoint append_stored (steps : nat) (self lst i : nat) (s : store) : option store :=
  match steps with
  | O => None
  | S n =>
      match nth_error (List_items lst s) i with
      | None => Some s
      | Some p => append_stored n self lst (S i) (snd (pages_append self p s))
      end
  end.

(** [Book.add_page] on a list object of the store (a list of pages:
    it is a [Sequence], and each item passes [is_sequence_page]). *)
Definition Book_add_page_stored (steps : nat) (self lst : nat) (s : store)
    : option (res nat * store) :=
  match append_stored steps self lst 0 s with
  | Some s' => Some (Ok self, s')
  | None => None
  end.

Definition Book___len__ (self : nat) (s : store) : Z :=
  Z.of_nat (length (Book__pages self s)).

Definition Book___iadd__ (self : nat) (other : pyobj) : M nat :=
  Book_add_page self other.

(** [Book.__add__] calls [Book(pages=self._pages)]. *)
Definition Book___add__ (self : nat) (other : pyobj) : M nat :=
  left <- (fun s => Book___init__ None None (Some (_pages (Book_obj self s))) s) ;;
  Book_add_page left other.

Definition Book_translate (self : nat) (s : store) : string :=
  let b := Book_obj self s in
  "{" ++ ("author:" ++ chr dquote ++ _author b ++ chr dquote
          ++ ", title: " ++ chr dquote ++ _title b ++ chr dquote
          ++ ", pages: "
          ++ py_repr (VList (map (fun p => VStr (Page_translate p s))
                               (Book__pages self s))))
      ++ "}".

Definition Book_item (self : nat) (s : store) : string :=
  "minecraft:written_book" ++ Book_translate self s.

Definition Book_give_cmd (self : nat) (selector : string) (count : Z) (s : store)
    : string :=
  "/give " ++ selector ++ " " ++ Book_item self s ++ " " ++ repr_int count.
End Book.


(* ================================================================== *)
(** ** Vocabulary of the specification *)

(** *** Hover events *)

Definition HoverEvent__action (h : HoverEvent) : HoverAction :=
  match h with
  | mkHoverEvent _ _ _action => _action
  end.

Definition isinstance_Item (o : pyobj) : bool :=
  match o with
  | PItem _ => true
  | _ => false
  end.

Definition isinstance_Entity (o : pyobj) : bool :=
  match o with
  | PEntity _ => true
  | _ => false
  end.

(** *** Colour tokens, as the specification words them *)

(** A hexadecimal digit of either case, by its code. *)
Definition is_hex (c : ascii) : bool :=
  let n := nat_of_ascii c in
  (((48 <=? n) && (n <=? 57)) || ((97 <=? n) && (n <=? 102))
   || ((65 <=? n) && (n <=? 70)))%nat.

(** Absent, a palette name, or [#] and six hexadecimal digits. *)
Definition color_accepted (token : value) : bool :=
  match token with
  | VNone => true
  | VStr s =>
      existsb (String.eqb s) COLOR
      || match s with
         | String "#" r =>
             (String.length r =? 6)%nat && forallb is_hex (list_ascii_of_string r)
         | _ => false
         end
  | _ => false
  end.

(** The base attributes of a component of a class that has them:
    every class but [RawComponent]. *)
Definition base_of (c : component) : option base :=
  match c with
  | RawComponent _ => None
  | AnyComponent b | TextComponent _ b | TranslatableComponent _ _ _ b
  | ScoreComponent _ _ b | EntityComponent _ _ b | KeybindComponent _ b
  | NbtComponent _ b => Some b
  end.

(** The colour a caller's [nbt] mapping brings of its own; it is merged
    last and would take the place of the component's. *)
Definition payload_color (c : component) : option value :=
  match c with
  | NbtComponent _nbt _ => dict_get "color" _nbt
  | _ => None
  end.

(** *** What a call of [add_component] appends *)

(** The renderings of the items up to the first one that fails. *)
Fixpoint rendered_prefix (items : list pyobj) : list value :=
  match items with
  | [] => []
  | x :: rest =>
      match call_translate x with
      | Ok v => v :: rendered_prefix rest
      | Err _ => []
      end
  end.

(** The components a call [add_component(other)] appends: the one
    component, or the components of an all-component sequence, as far
    as they render. *)
Definition appended (other : pyobj) : list value :=
  match other with
  | PComponent _ => rendered_prefix [other]
  | _ =>
      match sequence_items other with
      | Some items =>
          if forallb isinstance_BaseComponent items then rendered_prefix items else []
      | None => []
      end
  end.

(** An argument that is not a component and has an element that is not
    one, or is no sequence at all. *)
Definition not_components (other : pyobj) : bool :=
  negb (isinstance_BaseComponent other)
  && match sequence_items other with
     | Some items => existsb (fun x => negb (isinstance_BaseComponent x)) items
     | None => true
     end.

(** The elements of the [content] a page is constructed with. *)
Definition given_items (content : option (list pyobj)) : list pyobj :=
  match content with
  | Some l => l
  | None => []
  end.

(** Between two stores page [self] has gained [vs] at its end, and no
    page object was created. *)
Definition gained (self : nat) (vs : list value) (s s' : store) : Prop :=
  Page__content self s' = (Page__content self s ++ vs)%list
  /\ length (page_objs s') = length (page_objs s).

(** The two exceptions of the interpreter that a rendering can end in. *)
Definition render_error (e : exn) : Prop :=
  e = TypeError_mapping \/ e = AttributeError "_contents".

(** A caller that makes the calls one after the other and carries on
    after an exception. *)
Fixpoint run_calls (self : nat) (calls : list pyobj) (s : store) : store :=
  match calls with
  | [] => s
  | other :: rest => run_calls self rest (snd (Page_add_component self other s))
  end.

(** *** Quoting *)




(** *** The scenarios of the specification *)

Definition quoted (s : string) : string := chr dquote ++ s ++ chr dquote.

(** [Book('A', 'T', [Page()]).give_cmd('@p', 5)] *)
Definition give_one_empty_page (s : store) : res string :=
  match Page___init__ None s with
  | (Ok page, s1) =>
      match new_list [page] s1 with
      | (Ok pages, s2) =>
          match Book___init__ (Some "A") (Some "T") (Some pages) s2 with
          | (Ok book, s3) => Ok (Book_give_cmd book "@p" 5 s3)
          | (Err e, _) => Err e
          end
      | (Err e, _) => Err e
      end
  | (Err e, _) => Err e
  end.

(** The text the specification expects of it. *)
Definition give_cmd_expected : string :=
  "/give @p minecraft:written_book{author:" ++ quoted "A" ++ ", title:" ++ quoted "T"
  ++ ", pages:[[" ++ quoted EmptyString ++ ", ]]} 5".

(** The text the code gives. *)
Definition give_cmd_actual : string :=
  "/give @p minecraft:written_book{author:" ++ quoted "A" ++ ", title: " ++ quoted "T"
  ++ ", pages: ['[" ++ quoted EmptyString ++ "]']} 5".

(** [p = Page(); p.add_component(TextComponent('a')); p + TextComponent('b')] *)
Definition page_plus_component (s : store) : res nat * store :=
  match Page___init__ None s with
  | (Ok p, s1) =>
      match Page_add_component p (PComponent (TextComponent "a" plain)) s1 with
      | (Ok _, s2) => Page___add__ p (PComponent (TextComponent "b" plain)) s2
      | (Err e, s2) => (Err e, s2)
      end
  | (Err e, s1) => (Err e, s1)
  end.

(** [b = Book('A', 'T'); q = Page(); b + q] *)
Definition book_plus_page (s : store) : res nat * store :=
  match Book___init__ (Some "A") (Some "T") None s with
  | (Ok b, s1) =>
      match Page___init__ None s1 with
      | (Ok q, s2) => Book___add__ b (PPage q) s2
      | (Err e, s2) => (Err e, s2)
      end
  | (Err e, s1) => (Err e, s1)
  end.

(** *** Quotes in strings *)






(** A string with backslash and double quote in place of each single
    quote. *)
Fixpoint escape_squotes (s : string) : string :=
  match s with
  | EmptyString => EmptyString
  | String c r =>
      if Ascii.eqb c squote then String backslash (String dquote (escape_squotes r))
      else String c (escape_squotes r)
  end.




(** The mapping a caller gave an nbt component. *)
Definition payload (c : component) : dict :=
  match c with
  | NbtComponent _nbt _ => _nbt
  | _ => []
  end.

(** *** Shapes of the rendered mappings *)

(** The entry of an attribute that is set; nothing for one that is not. *)
Definition opt_item (k : string) (o : option value) : dict :=
  match o with
  | Some v => [(k, v)]
  | None => []
  end.

(** The entries of the base mapping in the order [AnyComponent.translate]
    writes them, for the rendering [hover] of the hover event. *)
Definition base_items (color : option string) (hover : option value)
    (click : option ClickEvent) (attribute : option StringFormat) : dict :=
  (opt_item "color" (if truthy_str color then option_map VStr color else None)
   ++ opt_item "hoverEvent" hover
   ++ opt_item "clickEvent" (option_map (fun e => VDict (ClickEvent_to_dict e)) click)
   ++ match attribute with
      | Some a => StringFormat_to_dict a
      | None => []
      end)%list.

(** The text of a rejected colour token in the error: the token itself
    when it is a string. *)
Definition color_named (token : value) : string :=
  match token with
  | VStr s => s
  | _ => "Unknown Color"
  end.

(** The colour attribute an accepted token leaves. *)
Definition color_kept (token : value) : option string :=
  match token with
  | VStr s => Some s
  | _ => None
  end.

(** The keys [AnyComponent.translate] can write. *)
Definition base_keys : list string :=
  ["color"; "hoverEvent"; "clickEvent"; "bold"; "italic"; "underlined";
   "strikethrough"; "obfuscated"; "font"].

(** *** Components that render *)

(** No translatable component is reached, and every hover event that
    is reached has its [_contents]. *)
Fixpoint renders (c : component) : bool :=
  match c with
  | RawComponent _ => true
  | TranslatableComponent _ _ _ _ => false
  | EntityComponent _ sep b =>
      base_renders b && match sep with
                        | Some x => renders x
                        | None => true
                        end
  | AnyComponent b | TextComponent _ b | ScoreComponent _ _ b
  | KeybindComponent _ b | NbtComponent _ b => base_renders b
  end
with base_renders (b : base) : bool :=
  match b with
  | Base _ _ hov _ =>
      match hov with
      | Some h => hover_renders h
      | None => true
      end
  end
with hover_renders (h : HoverEvent) : bool :=
  match h with
  | mkHoverEvent held_contents _ _ =>
      match held_contents with
      | None => false
      | Some (HeldComponent c) =>
          match c with
          | TextComponent _ _ => renders c
          | _ => true
          end
      | Some _ => true
      end
  end.

(** *** Changes to the store *)

(** Between two stores nothing but the content of page [self] differs. *)
Definition only_page (self : nat) (s s' : store) : Prop :=
  book_objs s' = book_objs s
  /\ list_objs s' = list_objs s
  /\ length (page_objs s') = length (page_objs s)
  /\ forall p, p <> self -> Page__content p s' = Page__content p s.

(** [self] is a book of the store: a book object, holding a list
    object. *)
Definition Book_exists (self : nat) (s : store) : Prop :=
  (self < length (book_objs s))%nat
  /\ (_pages (Book_obj self s) < length (list_objs s))%nat.

(** The pages a call [add_page(page)] appends: the one page, or the
    pages of an all-page sequence. *)
Definition added_pages (page : pyobj) : list nat :=
  match page with
  | PPage p => [p]
  | _ =>
      match sequence_items page with
      | Some items =>
          if forallb isinstance_Page items
          then flat_map (fun x => match x with PPage p => [p] | _ => [] end) items
          else []
      | None => []
      end
  end.

(* ================================================================== *)
(** ** Properties *)

(** *** Facts shared by the proofs *)

Lemma new_object_lookup {A : Type} (l : list A) (x d : A) :
  nth (length l) (l ++ [x])%list d = x.
Proof. apply nth_middle. Qed.

(** *** The give command (C1) *)

(** The page a constructor call without content creates holds the
    placeholder alone. *)
Lemma Page___init___None (s : store) :
  Page___init__ None s
  = (Ok (length (page_objs s)),
     mkStore (page_objs s ++ [[VStr EmptyString]])%list (book_objs s) (list_objs s)).
Proof. reflexivity. Qed.

(** C1, as the specification has it, fails: for the book of author "A",
    title "T" and one empty page, [give_cmd('@p', 5)] is not the text
    with [title:] and [pages:] unspaced and the page as a bare nested
    list. *)
Lemma give_cmd_not_as_expected :
  give_one_empty_page empty_store <> Ok give_cmd_expected.
Proof. vm_compute. discriminate. Qed.

(** C1, amended: whatever the store holds already, the book of author
    "A", title "T" and one empty page gives, for [give_cmd('@p', 5)],
    the struct literal in the order author, title, pages, with a space
    after [title:] and [pages:], and for [pages] the Python list of the
    rendered pages, each a string in single quotes: the empty page is
    the string of the list that holds the empty string. *)
Theorem give_cmd_one_empty_page (s : store) :
  give_one_empty_page s = Ok give_cmd_actual.
Proof.
  unfold give_one_empty_page. rewrite Page___init___None.
  unfold new_list, Book___init__, pages_or_new, bind, List_items.
  cbn [page_objs book_objs list_objs]. rewrite new_object_lookup.
  unfold Book_give_cmd, Book_item, Book_translate, Book__pages, List_items, Book_obj,
    Page_translate, Page__content.
  cbn [page_objs book_objs list_objs]. rewrite new_object_lookup.
  cbn [_author _title _pages]. rewrite new_object_lookup.
  cbn [map]. rewrite new_object_lookup.
  reflexivity.
Qed.

(** *** Translatable components (C2) *)

(** [self_translate] never gives a mapping: it raises what the nested
    component raises, or ends in [None]. *)
Lemma self_translate_None (fallback : option string) (with_json : option component)
    (v : value) :
  TranslatableComponent_self_translate translate fallback with_json = Ok v -> v = VNone.
Proof.
  unfold TranslatableComponent_self_translate.
  destruct with_json as [w|]; cbn.
  - destruct (translate w); cbn; congruence.
  - congruence.
Qed.

(** No translatable component renders. *)
Lemma TranslatableComponent_translate_raises (t : string) (fallback : option string)
    (with_json : option component) (b : base) :
  exists e, translate (TranslatableComponent t fallback with_json b) = Err e.
Proof.
  cbn [translate].
  destruct (AnyComponent_translate b) as [super|e]; cbn; [|eauto].
  destruct (TranslatableComponent_self_translate translate fallback with_json)
    as [own|e] eqn:E; cbn; [|eauto].
  apply self_translate_None in E. subst own. cbn. eauto.
Qed.

(** C2 fails on the code: the component
    [TranslatableComponent('chat.type.text')] is constructed, and its
    [translate()] raises [TypeError] where the claim has a mapping with
    the keys [translate] and [type]; no translatable component renders
    a mapping. *)
Theorem TranslatableComponent_translate_TypeError :
  (exists c,
     TranslatableComponent___init__ "chat.type.text" VNone None None None None None = Ok c
     /\ translate c = Err TypeError_mapping)
  /\ forall t fallback with_json b m,
       translate (TranslatableComponent t fallback with_json b) <> Ok m.
Proof.
  split.
  - eexists. split; reflexivity.
  - intros t fallback with_json b m H.
    destruct (TranslatableComponent_translate_raises t fallback with_json b) as [e He].
    congruence.
Qed.

(** *** Hover events (C3) *)

(** C3, as the specification has it, fails: a score component is a
    component, yet [HoverEvent] refuses it. *)
Lemma HoverEvent_refuses_a_component :
  isinstance_BaseComponent (PComponent (ScoreComponent "n" "o" plain)) = true
  /\ HoverEvent___init__ (PComponent (ScoreComponent "n" "o" plain))
     = Err ValueError_contents.
Proof. split; reflexivity. Qed.

(** The event of an item never renders: [to_dict] reads [_contents],
    which the [Item] branch of the constructor did not assign. *)
Lemma HoverEvent_Item_to_dict_raises (i : Item) :
  exists h, HoverEvent___init__ (PItem i) = Ok h
            /\ HoverEvent__action h = ITEM
            /\ HoverEvent_to_dict h = Err (AttributeError "_contents").
Proof. eexists. repeat split. Qed.

(** C3, amended: construction succeeds exactly when the content is a
    [TextComponent], an [Item] or an [Entity], and fails with the
    invalid-contents error on anything else, other components included;
    the action of a constructed event is [show_text], [show_item] or
    [show_entity] after the class of its content; and [to_dict] gives
    [{action, contents}] with, for contents, the rendering of the text
    component when it has one, and the entity's own mapping. *)
Theorem HoverEvent_contract (contents : pyobj) :
  (isinstance_TextComponent contents || isinstance_Item contents
   || isinstance_Entity contents = true ->
   exists h, HoverEvent___init__ contents = Ok h)
  /\ (isinstance_TextComponent contents || isinstance_Item contents
      || isinstance_Entity contents = false ->
      HoverEvent___init__ contents = Err ValueError_contents)
  /\ forall h, HoverEvent___init__ contents = Ok h ->
       (isinstance_TextComponent contents = true ->
        HoverAction_value (HoverEvent__action h) = "show_text")
       /\ (isinstance_Item contents = true ->
           HoverAction_value (HoverEvent__action h) = "show_item")
       /\ (isinstance_Entity contents = true ->
           HoverAction_value (HoverEvent__action h) = "show_entity")
       /\ (forall c m, contents = PComponent c -> translate c = Ok m ->
           HoverEvent_to_dict h
           = Ok (VDict [("action", VStr "show_text"); ("contents", m)]))
       /\ (forall e, contents = PEntity e ->
           HoverEvent_to_dict h
           = Ok (VDict [("action", VStr "show_entity");
                        ("contents", VDict (Entity_to_dict e))])).
Proof.
  destruct contents as [v|c|i|e|r|r|l];
    try (split; [discriminate | split; [reflexivity | discriminate]]).
  - (* a component *)
    destruct c;
      try (split; [discriminate | split; [reflexivity | discriminate]]).
    split; [intros _; eexists; reflexivity | split; [discriminate|]].
    intros h H. injection H as <-.
    repeat split; try discriminate.
    intros c m Hc Hm. injection Hc as <-.
    cbn [HoverEvent_to_dict]. rewrite Hm. reflexivity.
  - (* an item *)
    split; [intros _; eexists; reflexivity | split; [discriminate|]].
    intros h H. injection H as <-.
    repeat split; discriminate.
  - (* an entity *)
    split; [intros _; eexists; reflexivity | split; [discriminate|]].
    intros h H. injection H as <-.
    repeat split; try discriminate.
    intros e' He. injection He as <-. reflexivity.
Qed.

Lemma HoverEvent_contract_witness :
  exists h,
    HoverEvent___init__ (PComponent (TextComponent "Go" plain)) = Ok h
    /\ HoverAction_value (HoverEvent__action h) = "show_text"
    /\ HoverEvent_to_dict h
       = Ok (VDict [("action", VStr "show_text");
                    ("contents", VDict [("text", VStr "Go"); ("type", VStr "text")])]).
Proof.
  pose proof (HoverEvent_contract (PComponent (TextComponent "Go" plain)))
    as (Hmake & _ & Hshape).
  destruct (Hmake eq_refl) as [h Hh]. exists h.
  destruct (Hshape h Hh) as (Htext & _ & _ & Hdict & _).
  split; [exact Hh|]. split; [exact (Htext eq_refl)|].
  exact (Hdict _ _ eq_refl eq_refl).
Defined.

(** *** The type discriminator (C4) *)

(** The classes that name themselves: text, score, selector, keybind. *)
Lemma type_of_TextComponent (text : string) :
  translate (TextComponent text plain)
  = Ok (VDict [("text", VStr text); ("type", VStr "text")]).
Proof. reflexivity. Qed.

Lemma type_of_ScoreComponent (name objective : string) :
  translate (ScoreComponent name objective plain)
  = Ok (VDict [("score", VDict [("name", VStr name); ("objective", VStr objective)]);
               ("type", VStr "score")]).
Proof. reflexivity. Qed.

Lemma type_of_KeybindComponent (keybind : value) :
  translate (KeybindComponent keybind plain)
  = Ok (VDict [("keybind", keybind); ("type", VStr "keybind")]).
Proof. reflexivity. Qed.

(** C4 fails on the code: [NbtComponent({})] is constructed and renders
    as [{'type': 'keybind'}], the discriminator of another class, where
    the claim has the class's own name, [nbt]. *)
Theorem NbtComponent_type_is_keybind :
  exists c,
    NbtComponent___init__ [] VNone None None None = Ok c
    /\ translate c = Ok (VDict [("type", VStr "keybind")])
    /\ VStr "keybind" <> VStr "nbt".
Proof. eexists. repeat split. discriminate. Qed.

(** *** The additive combinator (C6) *)

(** [Book.__add__] raises on every receiver and argument: its
    constructor call leaves out the author and the title. *)
Lemma Book___add___raises (self : nat) (other : pyobj) (s : store) :
  Book___add__ self other s = (Err TypeError_arguments, s).
Proof. reflexivity. Qed.

(** [Page.__add__] raises on every receiver whose first component was
    rendered as a mapping: the constructor passes the placeholder, then
    refuses the mapping. *)
Lemma Page___add___raises (self : nat) (other : pyobj) (s : store) (d : dict)
    (rest : list value) :
  Page__content self s = VStr EmptyString :: VDict d :: rest ->
  fst (Page___add__ self other s) = Err ValueError_supply.
Proof.
  intros H. unfold Page___add__. unfold bind at 1. rewrite H. reflexivity.
Qed.

(** On a new page [+] does what the claim says: a second page with the
    component, the receiver as it was. *)
Lemma Page___add___on_new_page :
  match Page___init__ None empty_store with
  | (Ok p, s1) =>
      match Page___add__ p (PComponent (TextComponent "b" plain)) s1 with
      | (Ok q, s2) =>
          q <> p
          /\ Page__content p s2 = [VStr EmptyString]
          /\ Page__content q s2
             = [VStr EmptyString; VDict [("text", VStr "b"); ("type", VStr "text")]]
      | (Err _, _) => False
      end
  | (Err _, _) => False
  end.
Proof. cbn. repeat split. discriminate. Qed.

(** C6 fails on the code: on a page that holds the component
    [TextComponent('a')], [page + TextComponent('b')] raises the
    [ValueError] of [add_component], and on the book [Book('A', 'T')],
    [book + Page()] raises [TypeError]; the claim has a new page and a
    new book. *)
Theorem add_raises :
  fst (page_plus_component empty_store) = Err ValueError_supply
  /\ fst (book_plus_page empty_store) = Err TypeError_arguments.
Proof. split; reflexivity. Qed.

(** *** The separator of a selector (C8) *)

(** Without a separator neither spelling is a key. *)
Lemma EntityComponent_no_separator (selector : string) :
  translate (EntityComponent selector None plain)
  = Ok (VDict [("type", VStr "selector"); ("selector", VStr selector)]).
Proof. reflexivity. Qed.

(** C8 fails on the code: [EntityComponent('@a',
    separator=TextComponent(', '))] is constructed, and its rendering
    has the separator's mapping under the key [seperator]; the key
    [separator] of the claim is absent. *)
Theorem EntityComponent_key_is_seperator :
  exists c m,
    EntityComponent___init__ "@a" VNone None None None
      (Some (TextComponent ", " plain)) = Ok c
    /\ translate c = Ok (VDict m)
    /\ dict_get "separator" m = None
    /\ dict_get "seperator" m
       = Some (VDict [("text", VStr ", "); ("type", VStr "text")]).
Proof. do 2 eexists. repeat split. Qed.

(** *** Colour tokens (C7) *)

Section dict_facts.
Variable k : string.

Lemma dict_get_set (k' : string) (v : value) (d : dict) :
  dict_get k (dict_set k' v d) = if String.eqb k k' then Some v else dict_get k d.
Proof.
  induction d as [|[k0 v0] r IH]; cbn.
  - reflexivity.
  - destruct (String.eqb k' k0) eqn:E0; cbn.
    + apply String.eqb_eq in E0. subst k0.
      destruct (String.eqb k k'); reflexivity.
    + rewrite IH. destruct (String.eqb k k') eqn:E1; [|reflexivity].
      apply String.eqb_eq in E1. subst k'. rewrite E0. reflexivity.
Qed.

(** Merging a mapping that lacks a key leaves that key as it was. *)
Lemma dict_get_update_other (b a : dict) :
  dict_get k b = None -> dict_get k (dict_update a b) = dict_get k a.
Proof.
  unfold dict_update. revert a.
  induction b as [|[k0 v0] r IH]; intros a H; cbn in *.
  - reflexivity.
  - destruct (String.eqb k k0) eqn:E; [discriminate|].
    rewrite (IH _ H), dict_get_set, E. reflexivity.
Qed.
End dict_facts.

Lemma StringFormat_has_no_color (a : StringFormat) :
  dict_get "color" (StringFormat_to_dict a) = None.
Proof.
  destruct a as [[?|] [?|] [?|] [?|] [?|] [?|]]; reflexivity.
Qed.

(** Membership in [string.hexdigits] is being a hexadecimal digit. *)
Lemma hexdigits_is_hex (c : ascii) : str_contains c hexdigits = is_hex c.
Proof. destruct c as [[] [] [] [] [] [] [] []]; reflexivity. Qed.

Lemma check_hexdigits_forallb (color rest : string) :
  check_hexdigits color rest
  = if forallb is_hex (list_ascii_of_string rest) then Ok tt else color_error color.
Proof.
  induction rest as [|c r IH]; cbn [check_hexdigits list_ascii_of_string forallb].
  - reflexivity.
  - rewrite hexdigits_is_hex.
    destruct (is_hex c); cbn [negb andb]; [exact IH | reflexivity].
Qed.

(** [color.startswith('#')] looks at the first character. *)
Lemma startswith_hash (s : string) :
  String.prefix "#" s
  = match s with
    | String c _ => Ascii.eqb c "#"
    | EmptyString => false
    end.
Proof.
  destruct s as [|c r]; [reflexivity|].
  change (String.prefix "#" (String c r))
    with (if ascii_dec "#" c then String.prefix EmptyString r else false).
  destruct (ascii_dec "#" c) as [<-|Hc].
  - destruct r; reflexivity.
  - symmetry. apply Ascii.eqb_neq. congruence.
Qed.

(** The code's test of a colour string is the specification's. *)
Lemma color_check (s : string) (attr : option StringFormat)
    (hov : option HoverEvent) (clk : option ClickEvent) :
  AnyComponent___init__ (VStr s) attr hov clk
  = if color_accepted (VStr s) then Ok (Base (Some s) attr hov clk) else color_error s.
Proof.
  unfold AnyComponent___init__, color_accepted. rewrite startswith_hash.
  destruct s as [|c r]; [reflexivity|].
  destruct (Ascii.eqb c "#") eqn:Hc.
  - apply Ascii.eqb_eq in Hc. subst c.
    replace (existsb (String.eqb (String "#" r)) COLOR) with false by reflexivity.
    cbn [String.length Nat.eqb orb str_tail].
    destruct (String.length r =? 6)%nat; cbn [negb andb res_bind]; [|reflexivity].
    rewrite check_hexdigits_forallb.
    destruct (forallb is_hex (list_ascii_of_string r)); reflexivity.
  - replace (match String c r with
             | String "#" r0 =>
                 (String.length r0 =? 6)%nat && forallb is_hex (list_ascii_of_string r0)
             | _ => false
             end) with false
      by (destruct c as [[] [] [] [] [] [] [] []]; try reflexivity; discriminate Hc).
    rewrite orb_false_r.
    destruct (existsb (String.eqb (String c r)) COLOR); reflexivity.
Qed.

(** An accepted colour string is not empty, hence true in a test. *)
Lemma accepted_color_truthy (s : string) :
  color_accepted (VStr s) = true -> truthy_str (Some s) = true.
Proof. destruct s; [discriminate | reflexivity]. Qed.

(** The base mapping has the colour it was constructed with. *)
Lemma AnyComponent_translate_color (s : string) (attr : option StringFormat)
    (hov : option HoverEvent) (clk : option ClickEvent) (m : dict) :
  truthy_str (Some s) = true ->
  AnyComponent_translate (Base (Some s) attr hov clk) = Ok m ->
  dict_get "color" m = Some (VStr s).
Proof.
  intros Ht. cbn [AnyComponent_translate]. rewrite Ht.
  destruct hov as [h|]; [destruct (HoverEvent_to_dict h) as [r|e]|]; cbn [res_bind];
    try discriminate;
    destruct clk as [e|]; destruct attr as [a|]; intros H; injection H as <-;
    rewrite ?dict_get_update_other by apply StringFormat_has_no_color;
    reflexivity.
Qed.

(** Without a hover event the base mapping always renders. *)
Lemma AnyComponent_translate_total (col : option string)
    (attr : option StringFormat) (clk : option ClickEvent) :
  exists m, AnyComponent_translate (Base col attr None clk) = Ok m.
Proof. cbn. destruct attr; eauto. Qed.

(** The keys a class adds to the base mapping leave the colour alone. *)
Lemma translate_keeps_color (c : component) (b : base) (m : dict) (x : value) :
  base_of c = Some b -> payload_color c = None -> translate c = Ok (VDict m) ->
  (forall m0, AnyComponent_translate b = Ok m0 -> dict_get "color" m0 = Some x) ->
  dict_get "color" m = Some x.
Proof.
  intros Hb Hp Hm Hbase.
  destruct c; cbn in Hb; try discriminate; injection Hb as ->.
  3: { destruct (TranslatableComponent_translate_raises _translate _fallback
                   _with_json b) as [e He].
       rewrite He in Hm. discriminate. }
  all: cbn [translate] in Hm;
    destruct (AnyComponent_translate b) as [super|e]; cbn [res_bind] in Hm;
    try discriminate; specialize (Hbase _ eq_refl);
    try (destruct _seperator as [sep|];
         [destruct (translate sep); cbn [res_bind] in Hm; [|discriminate]|]);
    injection Hm as <-;
    cbn [payload_color] in Hp;
    rewrite ?(dict_get_update_other _ _ _ Hp);
    rewrite ?dict_get_update_other by reflexivity;
    rewrite ?dict_get_set; cbn; exact Hbase.
Qed.

(** *** Rendering a page (C9) *)

Section replace_facts.
Variables a b : ascii.




Lemma str_replace_length (x : string) :
  String.length (str_replace a b x) = String.length x.
Proof. induction x as [|c x IH]; cbn; [reflexivity | now rewrite IH]. Qed.

(** After [replace(a, b)] no [a] is left, when [b] is another character. *)
Lemma str_replace_removes (x : string) :
  Ascii.eqb b a = false -> str_contains a (str_replace a b x) = false.
Proof.
  intros Hab. induction x as [|c x IH]; cbn; [reflexivity|].
  rewrite IH, orb_false_r.
  destruct (Ascii.eqb c a) eqn:E; [exact Hab | exact E].
Qed.
End replace_facts.








(** *** What rendering can raise *)

Lemma translate_error (c : component) (e : exn) :
  translate c = Err e -> render_error e
with AnyComponent_translate_error (b : base) (e : exn) :
  AnyComponent_translate b = Err e -> render_error e
with HoverEvent_to_dict_error (h : HoverEvent) (e : exn) :
  HoverEvent_to_dict h = Err e -> render_error e.
Proof.
  - destruct c; cbn [translate]; intros H; try discriminate;
      destruct (AnyComponent_translate b) as [super|e0] eqn:Eb; cbn [res_bind] in H;
      try (injection H as <-; exact (AnyComponent_translate_error b _ Eb));
      try discriminate.
    + (* translatable *)
      unfold TranslatableComponent_self_translate in H.
      destruct _with_json as [w|]; cbn [res_bind] in H.
      * destruct (translate w) as [r|e1] eqn:Ew; cbn [res_bind dict_unpack] in H.
        -- injection H as <-. left. reflexivity.
        -- injection H as <-. exact (translate_error w _ Ew).
      * cbn in H. injection H as <-. left. reflexivity.
    + (* selector *)
      destruct _seperator as [sep|]; [|discriminate].
      destruct (translate sep) as [r|e1] eqn:Es; cbn [res_bind] in H; [discriminate|].
      injection H as <-. exact (translate_error sep _ Es).
  - destruct b as [col attr hov clk]; cbn [AnyComponent_translate]; intros H.
    destruct hov as [h|].
    + destruct (HoverEvent_to_dict h) as [r|e0] eqn:Eh; cbn [res_bind] in H.
      * destruct attr; discriminate.
      * injection H as <-. exact (HoverEvent_to_dict_error h _ Eh).
    + cbn [res_bind] in H. destruct attr; discriminate.
  - destruct h as [held_contents item action]; cbn [HoverEvent_to_dict]; intros H.
    destruct held_contents as [[c|i|en]|]; try discriminate.
    + pose proof (translate_error c) as IHc.
      destruct c; try discriminate.
      destruct (translate (TextComponent _text b)) as [r|e0];
        cbn [res_bind] in H; [discriminate|].
      injection H as <-. exact (IHc _ eq_refl).
    + injection H as <-. right. reflexivity.
Qed.

(** *** Appending to a page (C5) *)

Section update_facts.
Context {A : Type}.
Variables (f : A -> A) (d : A).

Lemma length_update_at (i : nat) (l : list A) :
  length (update_at i f l) = length l.
Proof.
  revert i. induction l as [|x l IH]; intros [|i]; cbn; auto.
Qed.

Lemma nth_update_at (i : nat) (l : list A) :
  (i < length l)%nat -> nth i (update_at i f l) d = f (nth i l d).
Proof.
  revert i. induction l as [|x l IH]; intros [|i] H; cbn in *; try lia.
  - reflexivity.
  - apply IH. lia.
Qed.
End update_facts.

Lemma gained_nothing (self : nat) (s : store) : gained self [] s s.
Proof. split; [symmetry; apply app_nil_r | reflexivity]. Qed.

Lemma gained_more (self : nat) (vs ws : list value) (s1 s2 s3 : store) :
  gained self vs s1 s2 -> gained self ws s2 s3 -> gained self (vs ++ ws) s1 s3.
Proof.
  intros [H1 L1] [H2 L2]. split.
  - rewrite H2, H1. symmetry. apply app_assoc.
  - congruence.
Qed.

(** One append, or the exception of the rendering and no change. *)
Lemma append_translated_run (self : nat) (item : pyobj) (s : store) :
  append_translated self item s
  = match call_translate item with
    | Ok r => (Ok tt, mkStore (update_at self (fun c => (c ++ [r])%list) (page_objs s))
                        (book_objs s) (list_objs s))
    | Err e => (Err e, s)
    end.
Proof.
  unfold append_translated, bind, lift, content_append.
  destruct (call_translate item); reflexivity.
Qed.

Lemma append_translated_gains (self : nat) (item : pyobj) (s : store) :
  (self < length (page_objs s))%nat ->
  gained self (rendered_prefix [item]) s (snd (append_translated self item s)).
Proof.
  intros Hs. rewrite append_translated_run. cbn [rendered_prefix].
  destruct (call_translate item) as [r|e]; cbn [snd].
  - split; unfold Page__content; cbn [page_objs].
    + exact (nth_update_at (fun c => (c ++ [r])%list) [] self (page_objs s) Hs).
    + apply length_update_at.
  - apply gained_nothing.
Qed.

(** The loop appends the renderings up to the first that fails. *)
Lemma loop_gains (self : nat) (items : list pyobj) (s : store) :
  (self < length (page_objs s))%nat ->
  gained self (rendered_prefix items) s (snd (for_each items (append_translated self) s)).
Proof.
  revert s. induction items as [|x rest IH]; intros s Hs; cbn [for_each rendered_prefix].
  - apply gained_nothing.
  - unfold bind. pose proof (append_translated_gains self x s Hs) as Hx.
    rewrite append_translated_run in *. cbn [rendered_prefix] in Hx.
    destruct (call_translate x) as [r|e]; cbn [snd] in *.
    + apply (gained_more self [r] _ _ _ _ Hx). apply IH.
      destruct Hx as [_ ->]. exact Hs.
    + exact Hx.
Qed.

(** The loop raises what a rendering raised, never the [ValueError] of
    [add_component]. *)
Lemma loop_error (self : nat) (items : list pyobj) (s : store) (e : exn) :
  fst (for_each items (append_translated self) s) = Err e ->
  render_error e \/ e = AttributeError "translate".
Proof.
  revert s. induction items as [|x rest IH]; intros s; cbn [for_each].
  - discriminate.
  - unfold bind. rewrite append_translated_run.
    destruct (call_translate x) as [r|e0] eqn:Ex.
    + apply IH.
    + cbn [fst]. intros H. injection H as <-.
      destruct x; cbn in Ex; try (injection Ex as <-; right; reflexivity).
      left. exact (translate_error _ _ Ex).
Qed.

(** [add_component] by the class of its argument. *)
Lemma add_component_component (self : nat) (c : component) (s : store) :
  Page_add_component self (PComponent c) s
  = match append_translated self (PComponent c) s with
    | (Ok _, s') => (Ok self, s')
    | (Err e, s') => (Err e, s')
    end.
Proof.
  unfold Page_add_component. cbn [isinstance_BaseComponent isinstance_Sequence
    sequence_items orb negb]. unfold bind, ret.
  destruct (append_translated self (PComponent c) s) as [[u|e] s']; reflexivity.
Qed.

Lemma sequence_not_component (other : pyobj) (items : list pyobj) :
  sequence_items other = Some items -> isinstance_BaseComponent other = false.
Proof. destruct other; try reflexivity. discriminate. Qed.

Lemma add_component_sequence (self : nat) (other : pyobj) (items : list pyobj)
    (s : store) :
  sequence_items other = Some items ->
  Page_add_component self other s
  = if forallb isinstance_BaseComponent items
    then match for_each items (append_translated self) s with
         | (Ok _, s') => (Ok self, s')
         | (Err e, s') => (Err e, s')
         end
    else (Err ValueError_element, s).
Proof.
  intros H. unfold Page_add_component, isinstance_Sequence, is_sequence_component.
  rewrite H, (sequence_not_component _ _ H). cbn [orb negb]. unfold bind, ret, raise.
  destruct (forallb isinstance_BaseComponent items); cbn [negb]; [|reflexivity].
  destruct (for_each items (append_translated self) s) as [[u|e] s']; reflexivity.
Qed.

Lemma add_component_other (self : nat) (other : pyobj) (s : store) :
  isinstance_BaseComponent other = false -> sequence_items other = None ->
  Page_add_component self other s = (Err ValueError_supply, s).
Proof.
  intros Hb H. unfold Page_add_component, isinstance_Sequence.
  rewrite H, Hb. reflexivity.
Qed.

Lemma appended_not_component (other : pyobj) :
  isinstance_BaseComponent other = false ->
  appended other
  = match sequence_items other with
    | Some items =>
        if forallb isinstance_BaseComponent items then rendered_prefix items else []
    | None => []
    end.
Proof. destruct other; try reflexivity. discriminate. Qed.

(** Whatever the argument and however the call ends, the page gains
    [appended other]. *)
Lemma add_component_gains (self : nat) (other : pyobj) (s : store) :
  (self < length (page_objs s))%nat ->
  gained self (appended other) s (snd (Page_add_component self other s)).
Proof.
  intros Hs. destruct (isinstance_BaseComponent other) eqn:Hb.
  - destruct other; try discriminate.
    rewrite add_component_component.
    pose proof (append_translated_gains self (PComponent c) s Hs) as Hg.
    destruct (append_translated self (PComponent c) s) as [[u|e] s']; exact Hg.
  - rewrite (appended_not_component _ Hb).
    destruct (sequence_items other) as [items|] eqn:Hi.
    + rewrite (add_component_sequence _ _ _ _ Hi).
      destruct (forallb isinstance_BaseComponent items).
      * pose proof (loop_gains self items s Hs) as Hg.
        destruct (for_each items (append_translated self) s) as [[u|e] s']; exact Hg.
      * apply gained_nothing.
    + rewrite (add_component_other _ _ _ Hb Hi). apply gained_nothing.
Qed.

(** An argument with something that is not a component is refused
    before anything is appended. *)
Lemma add_component_rejects (self : nat) (other : pyobj) (s : store) :
  not_components other = true ->
  exists e, (e = ValueError_supply \/ e = ValueError_element)
            /\ Page_add_component self other s = (Err e, s).
Proof.
  unfold not_components. intros H. apply andb_true_iff in H as [Hb H].
  apply negb_true_iff in Hb.
  destruct (sequence_items other) as [items|] eqn:Hi.
  - exists ValueError_element. split; [now right|].
    rewrite (add_component_sequence _ _ _ _ Hi).
    replace (forallb isinstance_BaseComponent items) with false; [reflexivity|].
    symmetry. apply not_true_is_false. intros Hall.
    rewrite forallb_forall in Hall. apply existsb_exists in H as (x & Hx & Hn).
    rewrite (Hall x Hx) in Hn. discriminate.
  - exists ValueError_supply. split; [now left|].
    apply add_component_other; assumption.
Qed.

Lemma run_calls_gains (self : nat) (calls : list pyobj) (s : store) :
  (self < length (page_objs s))%nat ->
  gained self (concat (map appended calls)) s (run_calls self calls s).
Proof.
  revert s. induction calls as [|other rest IH]; intros s Hs; cbn [run_calls map concat].
  - apply gained_nothing.
  - pose proof (add_component_gains self other s Hs) as Hg.
    apply (gained_more _ _ _ _ _ _ Hg). apply IH.
    destruct Hg as [_ ->]. exact Hs.
Qed.

(** The loop of the constructor, when it ends without an exception. *)
Lemma init_loop_gains (self : nat) (l : list pyobj) (s s' : store) :
  (self < length (page_objs s))%nat ->
  for_each l (fun component => bind (Page_add_component self component)
                                 (fun _ => ret tt)) s = (Ok tt, s') ->
  gained self (concat (map appended l)) s s'.
Proof.
  revert s. induction l as [|x rest IH]; intros s Hs; cbn [for_each map concat].
  - unfold ret. intros H. injection H as <-. apply gained_nothing.
  - unfold bind at 1 2. unfold ret at 1.
    pose proof (add_component_gains self x s Hs) as Hg.
    destruct (Page_add_component self x s) as [[r|e] s1]; cbn [snd] in Hg;
      [|discriminate].
    intros H. apply (gained_more _ _ _ _ _ _ Hg). apply IH; [|exact H].
    destruct Hg as [_ ->]. exact Hs.
Qed.

(** A constructed page holds the placeholder and then what the
    elements of [content] made it gain. *)
Lemma Page___init___content (content : option (list pyobj)) (s s0 : store)
    (self : nat) :
  Page___init__ content s = (Ok self, s0) ->
  (self < length (page_objs s0))%nat
  /\ Page__content self s0
     = VStr EmptyString :: concat (map appended (given_items content)).
Proof.
  unfold Page___init__. unfold bind at 1 2.
  set (s1 := mkStore (page_objs s ++ [[VStr EmptyString]])%list (book_objs s) (list_objs s)).
  assert (Hs1 : (length (page_objs s) < length (page_objs s1))%nat)
    by (cbn; rewrite length_app; cbn; lia).
  assert (Hc1 : Page__content (length (page_objs s)) s1 = [VStr EmptyString])
    by apply new_object_lookup.
  assert (Hnone : (Ok self, s0) = (Ok (length (page_objs s)), s1) ->
                  (self < length (page_objs s0))%nat
                  /\ Page__content self s0 = [VStr EmptyString]).
  { intros H. injection H as -> ->. split; assumption. }
  destruct content as [[|x l]|]; cbn [given_items map concat];
    try (unfold ret; intros H; apply Hnone; symmetry; exact H).
  destruct (for_each (x :: l) _ s1) as [[[]|e] s2] eqn:Hloop; [|discriminate].
  unfold ret. intros H. injection H as <- <-.
  destruct (init_loop_gains _ _ _ _ Hs1 Hloop) as [Hc Hl].
  split; [congruence|]. rewrite Hc, Hc1. reflexivity.
Qed.

Lemma all_components (cs : list component) :
  forallb isinstance_BaseComponent (map PComponent cs) = true.
Proof. induction cs; cbn; auto. Qed.

(** Components that all render, given as one sequence. *)
Lemma batch_renders (cs : list component) (vs : list value) :
  map translate cs = map Ok vs -> rendered_prefix (map PComponent cs) = vs.
Proof.
  revert vs. induction cs as [|c cs IH]; intros [|v vs] H; try discriminate.
  - reflexivity.
  - cbn [map] in H. injection H as Hc Hcs.
    cbn [map rendered_prefix call_translate]. rewrite Hc, (IH _ Hcs). reflexivity.
Qed.

(** The same components, given one call each. *)
Lemma one_by_one (cs : list component) (vs : list value) :
  map translate cs = map Ok vs -> concat (map appended (map PComponent cs)) = vs.
Proof.
  revert vs. induction cs as [|c cs IH]; intros [|v vs] H; try discriminate.
  - reflexivity.
  - cbn [map] in H. injection H as Hc Hcs.
    cbn [map concat appended rendered_prefix call_translate].
    rewrite Hc, (IH _ Hcs). reflexivity.
Qed.

(** C5: the length of a page is the number of components appended to
    it, the placeholder left out, by the constructor and by any calls
    of [add_component], each with one component or with a sequence, a
    batch counting as its components one at a time; and a call with an
    argument that is not a component, or a sequence with an element
    that is not one, fails with the [ValueError] of [add_component] and
    leaves the store, hence the page, as it was. *)
Theorem Page_len_counts_appended (content : option (list pyobj))
    (calls : list pyobj) (s s0 : store) (self : nat) :
  Page___init__ content s = (Ok self, s0) ->
  Page___len__ self (run_calls self calls s0)
  = Z.of_nat (length (concat (map appended (given_items content ++ calls))))
  /\ (forall cs vs, map translate cs = map Ok vs ->
        appended (PSeq (map PComponent cs)) = vs
        /\ concat (map appended (map PComponent cs)) = vs)
  /\ (forall other s1, not_components other = true ->
        exists e, (e = ValueError_supply \/ e = ValueError_element)
                  /\ Page_add_component self other s1 = (Err e, s1)).
Proof.
  intros Hinit. destruct (Page___init___content _ _ _ _ Hinit) as [Hs Hc].
  split; [|split].
  - destruct (run_calls_gains self calls s0 Hs) as [Hg _].
    unfold Page___len__. rewrite Hg, Hc, map_app, concat_app.
    cbn [length app]. rewrite !length_app. lia.
  - intros cs vs H. split.
    + unfold appended. cbn [sequence_items]. rewrite all_components.
      apply batch_renders, H.
    + apply one_by_one, H.
  - intros other s1. apply add_component_rejects.
Qed.

Lemma Page_len_counts_appended_witness :
  exists self s0,
    Page___init__ (Some [PComponent (TextComponent "a" plain)]) empty_store
    = (Ok self, s0)
    /\ Page___len__ self
         (run_calls self
            [PSeq [PComponent (TextComponent "b" plain);
                   PComponent (ScoreComponent "n" "o" plain)];
             PSeq [PComponent (TextComponent "c" plain); PVal (VInt 5)];
             PVal (VStr "d")] s0) = 3%Z.
Proof.
  do 2 eexists. split; [reflexivity|].
  exact (proj1 (Page_len_counts_appended
                  (Some [PComponent (TextComponent "a" plain)]) _ empty_store _ _
                  eq_refl)).
Defined.

(** *** Empty sequences (C10) *)

(** The loop of [add_page] raises nothing. *)
Lemma page_loop_ok (self : nat) (items : list pyobj) (s : store) :
  fst (for_each items (append_page self) s) = Ok tt.
Proof.
  revert s. induction items as [|x rest IH]; intros s; cbn [for_each].
  - reflexivity.
  - unfold bind. destruct x; cbn [append_page ret]; try apply IH.
    unfold pages_append. destruct (nth_error (book_objs s) self); apply IH.
Qed.

Lemma sequence_not_page (other : pyobj) (items : list pyobj) :
  sequence_items other = Some items -> isinstance_Page other = false.
Proof. destruct other; try reflexivity. discriminate. Qed.

Lemma add_page_sequence (self : nat) (other : pyobj) (items : list pyobj) (s : store) :
  sequence_items other = Some items ->
  Book_add_page self other s
  = if forallb isinstance_Page items
    then (Ok self, snd (for_each items (append_page self) s))
    else (Err ValueError_element, s).
Proof.
  intros H. unfold Book_add_page, isinstance_Sequence, is_sequence_page.
  rewrite H, (sequence_not_page _ _ H). cbn [orb negb]. unfold bind, ret, raise.
  destruct (forallb isinstance_Page items); cbn [negb]; [|reflexivity].
  pose proof (page_loop_ok self items s) as Hok.
  destruct (for_each items (append_page self) s) as [[[]|e] s']; cbn in Hok;
    [reflexivity | discriminate].
Qed.

(** A sequence passes the guard unless one of its items fails the test. *)
Lemma forallb_existsb_negb {A : Type} (p : A -> bool) (l : list A) :
  forallb p l = negb (existsb (fun x => negb (p x)) l).
Proof.
  induction l as [|x l IH]; cbn; [reflexivity|].
  rewrite IH. destruct (p x); reflexivity.
Qed.

(** C10: on every page and book, whatever the store, [add_component]
    and [add_page] with an empty sequence, the empty string being one,
    raise nothing, leave the store as it was and return the receiver;
    a sequence is refused with the [ValueError] for elements exactly
    when one of its items is not a component (for a book: not a page),
    so only when it is not empty; and every non-empty string is refused
    so. *)
Theorem empty_sequence_accepted (self : nat) (other : pyobj) (s : store) :
  sequence_items (PVal (VStr EmptyString)) = Some []
  /\ (sequence_items other = Some [] ->
      Page_add_component self other s = (Ok self, s)
      /\ Book_add_page self other s = (Ok self, s))
  /\ (forall items, sequence_items other = Some items ->
        (fst (Page_add_component self other s) = Err ValueError_element
         <-> existsb (fun x => negb (isinstance_BaseComponent x)) items = true)
        /\ (fst (Book_add_page self other s) = Err ValueError_element
            <-> existsb (fun x => negb (isinstance_Page x)) items = true)
        /\ (existsb (fun x => negb (isinstance_BaseComponent x)) items = true
            \/ existsb (fun x => negb (isinstance_Page x)) items = true ->
            items <> []))
  /\ (forall c r,
        Page_add_component self (PVal (VStr (String c r))) s = (Err ValueError_element, s)
        /\ Book_add_page self (PVal (VStr (String c r))) s = (Err ValueError_element, s)).
Proof.
  split; [reflexivity|]. split; [|split].
  - intros H. split.
    + rewrite (add_component_sequence _ _ _ _ H). reflexivity.
    + rewrite (add_page_sequence _ _ _ _ H). reflexivity.
  - intros items H. split; [|split].
    + rewrite (add_component_sequence _ _ _ _ H), forallb_existsb_negb.
      destruct (existsb _ items); cbn [negb].
      * split; reflexivity.
      * split; [|discriminate]. intros He. exfalso.
        assert (Hl : fst (for_each items (append_translated self) s)
                     = Err ValueError_element)
          by (destruct (for_each items (append_translated self) s) as [[u|e] s'];
              [discriminate | cbn in *; congruence]).
        destruct (loop_error _ _ _ _ Hl) as [[Hr|Hr]|Hr]; discriminate.
    + rewrite (add_page_sequence _ _ _ _ H), forallb_existsb_negb.
      destruct (existsb _ items); cbn [negb]; split; try reflexivity; discriminate.
    + intros [He|He] ->; discriminate.
  - intros c r. split.
    + rewrite (add_component_sequence self (PVal (VStr (String c r))) _ s eq_refl).
      reflexivity.
    + rewrite (add_page_sequence self (PVal (VStr (String c r))) _ s eq_refl).
      reflexivity.
Qed.

Lemma empty_sequence_accepted_witness :
  Page_add_component 0 (PVal (VStr EmptyString)) (mkStore [[VStr EmptyString]] [] [])
  = (Ok 0%nat, mkStore [[VStr EmptyString]] [] [])
  /\ Book_add_page 0 (PSeq []) (mkStore [] [mkBook "A" "T" 0] [[]])
     = (Ok 0%nat, mkStore [] [mkBook "A" "T" 0] [[]]).
Proof.
  split.
  - exact (proj1 (proj1 (proj2 (empty_sequence_accepted 0 (PVal (VStr EmptyString))
                                  (mkStore [[VStr EmptyString]] [] []))) eq_refl)).
  - exact (proj2 (proj1 (proj2 (empty_sequence_accepted 0 (PSeq [])
                                  (mkStore [] [mkBook "A" "T" 0] [[]]))) eq_refl)).
Defined.

(** *** Rendering a page, continued (C9) *)

(** [replace] works character by character. *)
Lemma get_str_replace (a b : ascii) (x : string) (n : nat) :
  String.get n (str_replace a b x)
  = option_map (fun c => if Ascii.eqb c a then b else c) (String.get n x).
Proof.
  revert n. induction x as [|c x IH]; intros n; cbn [str_replace String.get].
  - reflexivity.
  - destruct n as [|n]; [reflexivity | apply IH].
Qed.


Lemma str_app_assoc (x y z : string) : (x ++ y) ++ z = x ++ (y ++ z).
Proof. induction x as [|c x IH]; cbn; [reflexivity | now rewrite IH]. Qed.


(** A page with the text [it's]: the quote of the text is replaced
    like the delimiters, and ends the string early. *)
Example Page_translate_single_quote :
  Page_translate 0
    (mkStore [[VStr EmptyString; VDict [("text", VStr "it's"); ("type", VStr "text")]]] [] [])
  = "[" ++ quoted EmptyString ++ ", {" ++ quoted "text" ++ ": " ++ quoted "it" ++ "s"
    ++ chr dquote ++ ", " ++ quoted "type" ++ ": " ++ quoted "text" ++ "}]".
Proof. reflexivity. Qed.

(* ================================================================== *)
(** ** Further properties of the code *)

(** *** Mappings of the style and the events *)

Lemma dict_get_app (k : string) (a b : dict) :
  dict_get k (a ++ b)%list
  = match dict_get k a with
    | Some v => Some v
    | None => dict_get k b
    end.
Proof.
  induction a as [|[k0 v0] a IH]; cbn; [reflexivity|].
  destruct (String.eqb k k0); [reflexivity | exact IH].
Qed.

Lemma dict_get_opt_item (k k' : string) (o : option value) :
  dict_get k (opt_item k' o) = if String.eqb k k' then o else None.
Proof. destruct o; cbn; destruct (String.eqb k k'); reflexivity. Qed.

(** Setting a key the dict does not have puts it last. *)
Lemma dict_set_fresh (k : string) (v : value) (d : dict) :
  dict_get k d = None -> dict_set k v d = (d ++ [(k, v)])%list.
Proof.
  induction d as [|[k0 v0] d IH]; cbn; [reflexivity|].
  destruct (String.eqb k k0); [discriminate|].
  intros H. rewrite (IH H). reflexivity.
Qed.

Lemma StringFormat_to_dict_shape (f : StringFormat) :
  StringFormat_to_dict f
  = (opt_item "bold" (option_map VBool (bold f))
     ++ opt_item "italic" (option_map VBool (italic f))
     ++ opt_item "underlined" (option_map VBool (underlined f))
     ++ opt_item "strikethrough" (option_map VBool (strikethrough f))
     ++ opt_item "obfuscated" (option_map VBool (obfuscated f))
     ++ opt_item "font" (option_map VStr (font f)))%list.
Proof. destruct f as [[?|] [?|] [?|] [?|] [?|] [?|]]; reflexivity. Qed.

(** X1: the mapping of a [StringFormat] has the fields that are set and
    no others, in the order the dataclass declares them; looking a
    field up gives its value, or nothing when it is unset; the format
    without arguments gives the empty mapping. *)
Theorem StringFormat_to_dict_set_fields (f : StringFormat) :
  StringFormat_to_dict f
  = (opt_item "bold" (option_map VBool (bold f))
     ++ opt_item "italic" (option_map VBool (italic f))
     ++ opt_item "underlined" (option_map VBool (underlined f))
     ++ opt_item "strikethrough" (option_map VBool (strikethrough f))
     ++ opt_item "obfuscated" (option_map VBool (obfuscated f))
     ++ opt_item "font" (option_map VStr (font f)))%list
  /\ dict_get "bold" (StringFormat_to_dict f) = option_map VBool (bold f)
  /\ dict_get "italic" (StringFormat_to_dict f) = option_map VBool (italic f)
  /\ dict_get "underlined" (StringFormat_to_dict f) = option_map VBool (underlined f)
  /\ dict_get "strikethrough" (StringFormat_to_dict f)
     = option_map VBool (strikethrough f)
  /\ dict_get "obfuscated" (StringFormat_to_dict f) = option_map VBool (obfuscated f)
  /\ dict_get "font" (StringFormat_to_dict f) = option_map VStr (font f)
  /\ StringFormat_to_dict (mkStringFormat None None None None None None) = [].
Proof.
  split; [apply StringFormat_to_dict_shape|].
  destruct f as [[?|] [?|] [?|] [?|] [?|] [?|]]; repeat split.
Qed.

Lemma ClickAction_value_injective (a1 a2 : ClickAction) :
  ClickAction_value a1 = ClickAction_value a2 -> a1 = a2.
Proof. destruct a1, a2; cbn; intros H; try reflexivity; discriminate. Qed.

(** X2: the mapping of a [ClickEvent] always has its two keys, the
    string of the action and the value, and two events with the same
    mapping are the same event. *)
Theorem ClickEvent_to_dict_faithful (e1 e2 : ClickEvent) :
  (forall a v,
     e1 = mkClickEvent a v ->
     ClickEvent_to_dict e1
     = [("action", VStr (ClickAction_value a)); ("value", VStr v)])
  /\ (ClickEvent_to_dict e1 = ClickEvent_to_dict e2 -> e1 = e2).
Proof.
  split.
  - intros a v ->. reflexivity.
  - destruct e1 as [a1 v1], e2 as [a2 v2]. cbn. intros H.
    injection H as Ha Hv. apply ClickAction_value_injective in Ha. congruence.
Qed.

Lemma ClickEvent_to_dict_faithful_witness :
  ClickEvent_to_dict (mkClickEvent URL "https://google.com")
  = [("action", VStr "open_url"); ("value", VStr "https://google.com")].
Proof.
  exact (proj1 (ClickEvent_to_dict_faithful (mkClickEvent URL "https://google.com")
                  (mkClickEvent URL "https://google.com")) _ _ eq_refl).
Defined.

(** *** The base mapping and the keys of the classes *)

Lemma AnyComponent_translate_shape (col : option string)
    (attr : option StringFormat) (hov : option HoverEvent) (clk : option ClickEvent) :
  AnyComponent_translate (Base col attr hov clk)
  = match hov with
    | None => Ok (base_items col None clk attr)
    | Some h =>
        match HoverEvent_to_dict h with
        | Ok r => Ok (base_items col (Some r) clk attr)
        | Err e => Err e
        end
    end.
Proof.
  cbn [AnyComponent_translate].
  destruct hov as [h|]; [destruct (HoverEvent_to_dict h) as [r|e]|]; cbn [res_bind];
    try reflexivity;
    destruct col as [[|c0 s0]|]; destruct clk as [e|];
    destruct attr as [[[?|] [?|] [?|] [?|] [?|] [?|]]|]; reflexivity.
Qed.

Lemma base_items_keys (col : option string) (hover : option value)
    (clk : option ClickEvent) (attr : option StringFormat) :
  incl (map fst (base_items col hover clk attr)) base_keys.
Proof.
  unfold base_items.
  destruct attr as [a|]; [rewrite StringFormat_to_dict_shape; destruct a as [b i u st o f]|];
    cbn [bold italic underlined strikethrough obfuscated font];
    rewrite ?map_app;
    repeat (apply incl_app);
    try (apply incl_nil_l);
    match goal with
    | |- incl (map fst (opt_item _ ?o)) _ =>
        destruct o; cbn; [|apply incl_nil_l];
        intros k [<-|[]]; cbn; tauto
    end.
Qed.

(** X3: [AnyComponent.translate] writes the colour when it is a
    non-empty string, then the rendered hover event, then the click
    event, then the set fields of the style, flattened into the same
    mapping, each only when present and in this order; it raises
    exactly what rendering the hover event raises; and it writes no
    key outside [base_keys]. *)
Theorem AnyComponent_translate_items (col : option string)
    (attr : option StringFormat) (hov : option HoverEvent) (clk : option ClickEvent) :
  AnyComponent_translate (Base col attr hov clk)
  = match hov with
    | None => Ok (base_items col None clk attr)
    | Some h =>
        match HoverEvent_to_dict h with
        | Ok r => Ok (base_items col (Some r) clk attr)
        | Err e => Err e
        end
    end
  /\ AnyComponent_translate (Base None None None None) = Ok []
  /\ forall hover, incl (map fst (base_items col hover clk attr)) base_keys.
Proof.
  split; [apply AnyComponent_translate_shape|]. split; [reflexivity|].
  intros hover. apply base_items_keys.
Qed.

(** A key outside [base_keys] is not in the base mapping. *)
Lemma base_mapping_lacks (b : base) (super : dict) (k : string) :
  AnyComponent_translate b = Ok super -> ~ In k base_keys -> dict_get k super = None.
Proof.
  intros H Hk. destruct b as [col attr hov clk].
  destruct (dict_get k super) as [v|] eqn:E; [exfalso | reflexivity].
  assert (Hin : In k (map fst super)).
  { clear -E. induction super as [|[k0 v0] d IH]; cbn in *; [discriminate|].
    destruct (String.eqb k k0) eqn:E0; [left; symmetry; now apply String.eqb_eq|].
    right. exact (IH E). }
  apply Hk.
  rewrite AnyComponent_translate_shape in H.
  destruct hov as [h|]; [destruct (HoverEvent_to_dict h); [|discriminate]|];
    injection H as <-; exact (base_items_keys _ _ _ _ _ Hin).
Qed.

(** Keys of the classes, none of them a base key. *)
Ltac not_base_key := cbn; intuition discriminate.

(** X4: a text, score, keybind or selector component renders exactly
    when its base mapping does, as the base mapping followed by the
    keys of its class in the order the code writes them: [text] and
    [type]; [score] and [type]; [keybind] and [type]; [type],
    [selector] and, with a separator that renders, [seperator].  No key
    of a class replaces a base key. *)
Theorem class_keys_follow_base (b : base) (super : dict) :
  AnyComponent_translate b = Ok super ->
  (forall text,
     translate (TextComponent text b)
     = Ok (VDict (super ++ [("text", VStr text); ("type", VStr "text")])))
  /\ (forall name objective,
        translate (ScoreComponent name objective b)
        = Ok (VDict (super ++ [("score", VDict [("name", VStr name);
                                                ("objective", VStr objective)]);
                               ("type", VStr "score")])))
  /\ (forall keybind,
        translate (KeybindComponent keybind b)
        = Ok (VDict (super ++ [("keybind", keybind); ("type", VStr "keybind")])))
  /\ (forall selector,
        translate (EntityComponent selector None b)
        = Ok (VDict (super ++ [("type", VStr "selector"); ("selector", VStr selector)])))
  /\ (forall selector sep r,
        translate sep = Ok r ->
        translate (EntityComponent selector (Some sep) b)
        = Ok (VDict (super ++ [("type", VStr "selector"); ("selector", VStr selector);
                               ("seperator", r)]))).
Proof.
  intros H.
  assert (Hset : forall k1 v1 k2 v2,
             ~ In k1 base_keys -> ~ In k2 base_keys -> String.eqb k2 k1 = false ->
             dict_update super (dict_of [(k1, v1); (k2, v2)])
             = (super ++ [(k1, v1); (k2, v2)])%list).
  { intros k1 v1 k2 v2 H1 H2 H12.
    assert (Hof : dict_of [(k1, v1); (k2, v2)] = [(k1, v1); (k2, v2)]).
    { unfold dict_of, dict_update. cbn. rewrite H12. reflexivity. }
    rewrite Hof. unfold dict_update. cbn [fold_left fst snd].
    rewrite (dict_set_fresh k1 v1 super (base_mapping_lacks _ _ _ H H1)).
    rewrite dict_set_fresh.
    - rewrite <- app_assoc. reflexivity.
    - rewrite dict_get_app, (base_mapping_lacks _ _ _ H H2). cbn. rewrite H12.
      reflexivity. }
  repeat split; intros; cbn [translate]; rewrite H; cbn [res_bind].
  - rewrite Hset by (reflexivity || not_base_key). reflexivity.
  - rewrite Hset by (reflexivity || not_base_key). reflexivity.
  - rewrite Hset by (reflexivity || not_base_key). reflexivity.
  - rewrite Hset by (reflexivity || not_base_key). reflexivity.
  - match goal with Hr : translate _ = Ok _ |- _ => rewrite Hr end. cbn [res_bind].
    rewrite Hset by (reflexivity || not_base_key).
    rewrite dict_set_fresh.
    + rewrite <- app_assoc. reflexivity.
    + rewrite dict_get_app, (base_mapping_lacks _ _ _ H) by not_base_key.
      reflexivity.
Qed.

Lemma class_keys_follow_base_witness :
  translate (TextComponent "Hi" (Base (Some "red") None None None))
  = Ok (VDict [("color", VStr "red"); ("text", VStr "Hi"); ("type", VStr "text")]).
Proof.
  exact (proj1 (class_keys_follow_base (Base (Some "red") None None None)
                  [("color", VStr "red")] eq_refl) "Hi").
Defined.

(** *** The payload of an nbt component *)

Lemma dict_get_absent (k : string) (d : dict) :
  ~ In k (map fst d) -> dict_get k d = None.
Proof.
  induction d as [|[k0 v0] d IH]; cbn; [reflexivity|].
  intros H. destruct (String.eqb k k0) eqn:E.
  - apply String.eqb_eq in E. subst. tauto.
  - apply IH. tauto.
Qed.

(** Looking a key up in [{**a, **b}], for a dict [b]: its keys differ. *)
Lemma dict_get_update (k : string) (b a : dict) :
  NoDup (map fst b) ->
  dict_get k (dict_update a b)
  = match dict_get k b with
    | Some v => Some v
    | None => dict_get k a
    end.
Proof.
  unfold dict_update. revert a.
  induction b as [|[k0 v0] r IH]; intros a Hnd; cbn [fold_left fst snd dict_get map] in *.
  - reflexivity.
  - inversion Hnd as [|? ? Hnot Hr]; subst.
    rewrite (IH _ Hr), dict_get_set.
    destruct (String.eqb k k0) eqn:E; [|reflexivity].
    apply String.eqb_eq in E. subst k0. rewrite (dict_get_absent _ _ Hnot).
    reflexivity.
Qed.

(** X5: an nbt component renders when its base mapping does, and in
    the rendering every key of the caller's mapping has the caller's
    value, whatever the base mapping or the class wrote under that key
    ([type] included); a key the caller's mapping lacks has the value
    of the class, [type] being [keybind], or else of the base mapping. *)
Theorem NbtComponent_payload_wins (nbt : dict) (b : base) (super : dict) :
  NoDup (map fst nbt) ->
  AnyComponent_translate b = Ok super ->
  exists m,
    translate (NbtComponent nbt b) = Ok (VDict m)
    /\ forall k,
         dict_get k m
         = match dict_get k nbt with
           | Some v => Some v
           | None => if String.eqb k "type" then Some (VStr "keybind")
                     else dict_get k super
           end.
Proof.
  intros Hnd H. eexists. split.
  - cbn [translate]. rewrite H. reflexivity.
  - intros k. rewrite (dict_get_update k nbt _ Hnd).
    destruct (dict_get k nbt); [reflexivity|].
    unfold dict_of, dict_update. cbn [fold_left fst snd dict_set].
    apply dict_get_set.
Qed.

Lemma NbtComponent_payload_wins_witness :
  exists m,
    translate (NbtComponent [("type", VStr "nbt"); ("color", VStr "blue")]
                 (Base (Some "red") None None None)) = Ok (VDict m)
    /\ dict_get "type" m = Some (VStr "nbt")
    /\ dict_get "color" m = Some (VStr "blue").
Proof.
  destruct (NbtComponent_payload_wins [("type", VStr "nbt"); ("color", VStr "blue")]
              (Base (Some "red") None None None) [("color", VStr "red")])
    as (m & Hm & Hk).
  - repeat constructor; cbn; intuition discriminate.
  - reflexivity.
  - exists m. split; [exact Hm|]. split; [exact (Hk "type") | exact (Hk "color")].
Defined.

(** *** Which components render *)

(** X6: a hover event made from an [Item] is constructed, with the
    action [show_item], but never renders, and neither does any
    component of a class with base attributes that carries it: each
    ends in the [AttributeError] for [_contents]. *)
Theorem Item_hover_never_renders (i : Item) (h : HoverEvent) :
  HoverEvent___init__ (PItem i) = Ok h ->
  HoverAction_value (HoverEvent__action h) = "show_item"
  /\ HoverEvent_to_dict h = Err (AttributeError "_contents")
  /\ forall c col attr clk,
       base_of c = Some (Base col attr (Some h) clk) ->
       translate c = Err (AttributeError "_contents").
Proof.
  intros H. injection H as <-. split; [reflexivity|]. split; [reflexivity|].
  intros c col attr clk Hb.
  destruct c; cbn in Hb; try discriminate; injection Hb as ->; reflexivity.
Qed.

Lemma Item_hover_never_renders_witness :
  exists h,
    HoverEvent___init__ (PItem (mkItem "minecraft:stone" None None)) = Ok h
    /\ translate (TextComponent "x" (Base None None (Some h) None))
       = Err (AttributeError "_contents").
Proof.
  eexists. split; [reflexivity|].
  exact (proj2 (proj2 (Item_hover_never_renders (mkItem "minecraft:stone" None None)
                         _ eq_refl))
           (TextComponent "x" (Base None None (Some _) None)) None None None eq_refl).
Defined.

(** Rendering succeeds on the components that [renders] accepts and on
    no others. *)
Lemma translate_renders (c : component) :
  match translate c with
  | Ok _ => renders c = true
  | Err _ => renders c = false
  end
with AnyComponent_translate_renders (b : base) :
  match AnyComponent_translate b with
  | Ok _ => base_renders b = true
  | Err _ => base_renders b = false
  end
with HoverEvent_to_dict_renders (h : HoverEvent) :
  match HoverEvent_to_dict h with
  | Ok _ => hover_renders h = true
  | Err _ => hover_renders h = false
  end.
Proof.
  - destruct c; cbn [translate renders]; try reflexivity;
      pose proof (AnyComponent_translate_renders b) as Hb;
      destruct (AnyComponent_translate b) as [super|e]; cbn [res_bind];
      try exact Hb; try reflexivity.
    + (* translatable *)
      destruct (TranslatableComponent_self_translate translate _fallback _with_json)
        as [own|e] eqn:E; cbn [res_bind]; [|reflexivity].
      apply self_translate_None in E. subst own. reflexivity.
    + (* selector, base rendered *)
      rewrite Hb. cbn [andb].
      destruct _seperator as [sep|]; [|reflexivity].
      pose proof (translate_renders sep) as Hs.
      destruct (translate sep); exact Hs.
    + (* selector, base failed *)
      rewrite Hb. reflexivity.
  - destruct b as [col attr hov clk]; cbn [AnyComponent_translate base_renders].
    destruct hov as [h|].
    + pose proof (HoverEvent_to_dict_renders h) as Hh.
      destruct (HoverEvent_to_dict h); cbn [res_bind]; [destruct attr|]; exact Hh.
    + cbn [res_bind]. destruct attr; reflexivity.
  - destruct h as [held_contents item action]; cbn [HoverEvent_to_dict hover_renders].
    destruct held_contents as [[c|i|en]|]; try reflexivity.
    pose proof (translate_renders c) as Hc.
    destruct c; try reflexivity.
    destruct (translate (TextComponent _text b)); exact Hc.
Qed.

(** X7: a component renders exactly when rendering reaches no
    translatable component and no hover event without [_contents] (one
    made from an [Item]), in the component itself, in the separator of
    a selector or in the text a hover event shows; when it does not
    render, the exception is the [TypeError] of the translatable
    component or the [AttributeError] of the hover event, never a
    [ValueError]. *)
Theorem translate_succeeds_iff (c : component) :
  ((exists v, translate c = Ok v) <-> renders c = true)
  /\ (forall e, translate c = Err e ->
        renders c = false
        /\ (e = TypeError_mapping \/ e = AttributeError "_contents")).
Proof.
  pose proof (translate_renders c) as H. split; [split|].
  - intros [v Hv]. rewrite Hv in H. exact H.
  - intros Hr. destruct (translate c) as [v|e]; [eauto | congruence].
  - intros e He. split.
    + rewrite He in H. exact H.
    + exact (translate_error c e He).
Qed.

Lemma translate_succeeds_iff_witness :
  exists v,
    translate (EntityComponent "@a" (Some (TextComponent ", " plain)) plain) = Ok v.
Proof.
  exact (proj2 (proj1 (translate_succeeds_iff
                         (EntityComponent "@a" (Some (TextComponent ", " plain)) plain)))
           eq_refl).
Defined.

(** *** Constructors *)

(** X8: the six constructors with a colour accept and refuse the same
    tokens: on an accepted token each gives the object with its
    arguments as they were passed, the colour included; on a refused
    one each raises the colour error, which carries the token when it
    is a string and the text [Unknown Color] when it is not. *)
Theorem constructors_check_color (token : value) (attr : option StringFormat)
    (hov : option HoverEvent) (clk : option ClickEvent) :
  let made := if color_accepted token
              then Ok (Base (color_kept token) attr hov clk)
              else Err (ValueError_color (color_named token)) in
  AnyComponent___init__ token attr hov clk = made
  /\ (forall text,
        TextComponent___init__ text token attr hov clk
        = res_bind made (fun b => Ok (TextComponent text b)))
  /\ (forall t fallback with_json,
        TranslatableComponent___init__ t token attr hov clk fallback with_json
        = res_bind made (fun b => Ok (TranslatableComponent t fallback with_json b)))
  /\ (forall name objective,
        ScoreComponent___init__ name objective token attr hov clk
        = res_bind made (fun b => Ok (ScoreComponent name objective b)))
  /\ (forall selector separator,
        EntityComponent___init__ selector token attr hov clk separator
        = res_bind made (fun b => Ok (EntityComponent selector separator b)))
  /\ (forall keybind,
        KeybindComponent___init__ keybind token attr hov clk
        = res_bind made (fun b => Ok (KeybindComponent keybind b)))
  /\ (forall nbt,
        NbtComponent___init__ nbt token attr hov clk
        = res_bind made (fun b => Ok (NbtComponent nbt b))).
Proof.
  intros made.
  assert (H : AnyComponent___init__ token attr hov clk = made).
  { subst made. destruct token; try reflexivity. apply color_check. }
  split; [exact H|].
  unfold TextComponent___init__, TranslatableComponent___init__,
    ScoreComponent___init__, EntityComponent___init__, KeybindComponent___init__,
    NbtComponent___init__.
  rewrite H. repeat split.
Qed.

(** *** What [add_component] changes *)

Lemma nth_update_at_other {A : Type} (f : A -> A) (d : A) (i j : nat) (l : list A) :
  i <> j -> nth j (update_at i f l) d = nth j l d.
Proof.
  revert i j. induction l as [|x l IH]; intros [|i] [|j] H; cbn; try reflexivity.
  - contradiction.
  - apply IH. congruence.
Qed.

Lemma only_page_same (self : nat) (s : store) : only_page self s s.
Proof. repeat split. Qed.

Lemma only_page_then (self : nat) (s1 s2 s3 : store) :
  only_page self s1 s2 -> only_page self s2 s3 -> only_page self s1 s3.
Proof.
  intros (B1 & O1 & L1 & C1) (B2 & O2 & L2 & C2). repeat split; try congruence.
  intros p Hp. rewrite (C2 p Hp). exact (C1 p Hp).
Qed.

Lemma append_translated_only (self : nat) (item : pyobj) (s : store) :
  only_page self s (snd (append_translated self item s)).
Proof.
  rewrite append_translated_run.
  destruct (call_translate item) as [r|e]; cbn [snd]; [|apply only_page_same].
  repeat split; cbn [page_objs book_objs list_objs].
  - apply length_update_at.
  - intros p Hp. unfold Page__content. cbn [page_objs].
    apply nth_update_at_other. congruence.
Qed.

Lemma loop_only (self : nat) (items : list pyobj) (s : store) :
  only_page self s (snd (for_each items (append_translated self) s)).
Proof.
  revert s. induction items as [|x rest IH]; intros s; cbn [for_each].
  - apply only_page_same.
  - unfold bind. pose proof (append_translated_only self x s) as Hx.
    destruct (append_translated self x s) as [[u|e] s1]; cbn [snd] in *.
    + exact (only_page_then _ _ _ _ Hx (IH s1)).
    + exact Hx.
Qed.

Lemma add_component_only (self : nat) (other : pyobj) (s : store) :
  only_page self s (snd (Page_add_component self other s)).
Proof.
  destruct (isinstance_BaseComponent other) eqn:Hb.
  - destruct other; try discriminate. rewrite add_component_component.
    pose proof (append_translated_only self (PComponent c) s) as H.
    destruct (append_translated self (PComponent c) s) as [[u|e] s']; exact H.
  - destruct (sequence_items other) as [items|] eqn:Hi.
    + rewrite (add_component_sequence _ _ _ _ Hi).
      destruct (forallb isinstance_BaseComponent items); [|apply only_page_same].
      pose proof (loop_only self items s) as H.
      destruct (for_each items (append_translated self) s) as [[u|e] s']; exact H.
    + rewrite (add_component_other _ _ _ Hb Hi). apply only_page_same.
Qed.

(** X9: whatever its argument and however it ends, [add_component]
    creates no object and changes no book, no list of pages and no page
    other than the receiver; the receiver keeps what it held, in place, with the
    appended renderings after it. *)
Theorem add_component_changes_one_page (self : nat) (other : pyobj) (s : store) :
  let s' := snd (Page_add_component self other s) in
  book_objs s' = book_objs s
  /\ list_objs s' = list_objs s
  /\ length (page_objs s') = length (page_objs s)
  /\ (forall p, p <> self -> Page__content p s' = Page__content p s)
  /\ ((self < length (page_objs s))%nat ->
      firstn (length (Page__content self s)) (Page__content self s')
      = Page__content self s).
Proof.
  destruct (add_component_only self other s) as (B & O & L & C).
  repeat split; try assumption.
  intros Hs. destruct (add_component_gains self other s Hs) as [Hg _].
  rewrite Hg, firstn_app, Nat.sub_diag, firstn_all. cbn. apply app_nil_r.
Qed.

Lemma add_component_changes_one_page_witness :
  Page__content 0
    (snd (Page_add_component 1 (PComponent (TextComponent "b" plain))
            (mkStore [[VStr EmptyString; VStr "kept"]; [VStr EmptyString]] [] [])))
  = [VStr EmptyString; VStr "kept"].
Proof.
  exact (proj1 (proj2 (proj2 (proj2 (add_component_changes_one_page 1
                                       (PComponent (TextComponent "b" plain))
                                       (mkStore [[VStr EmptyString; VStr "kept"];
                                                 [VStr EmptyString]] [] [])))))
           0%nat (fun H => Nat.neq_succ_0 0 (eq_sym H))).
Defined.

(** The loop over components stops at the first that fails to render. *)
Lemma loop_stops (self : nat) (cs1 : list component) (vs : list value)
    (c : component) (e : exn) (cs2 : list component) (s : store) :
  map translate cs1 = map Ok vs -> translate c = Err e ->
  fst (for_each (map PComponent (cs1 ++ c :: cs2)) (append_translated self) s) = Err e
  /\ rendered_prefix (map PComponent (cs1 ++ c :: cs2)) = vs.
Proof.
  revert vs s. induction cs1 as [|c1 cs1 IH]; intros [|v vs] s H He; try discriminate;
    cbn [app map for_each rendered_prefix call_translate]; unfold bind;
    rewrite append_translated_run; cbn [call_translate].
  - rewrite He. split; reflexivity.
  - cbn [map] in H. injection H as Hc Hcs. rewrite Hc.
    destruct (IH vs (mkStore (update_at self (fun c0 => (c0 ++ [v])%list) (page_objs s))
                       (book_objs s) (list_objs s)) Hcs He) as [H1 H2].
    split; [exact H1 | now rewrite H2].
Qed.

(** X10: a component that fails to render is not appended and the
    call raises what the rendering raised; in a sequence of components
    the ones before the first that fails are appended and stay
    appended when the call raises, so the length grows by their
    number: the refusal of a sequence is atomic, a failed rendering in
    it is not. *)
Theorem add_component_render_failure (self : nat) (cs1 : list component)
    (vs : list value) (c : component) (e : exn) (cs2 : list component) (s : store) :
  (self < length (page_objs s))%nat ->
  map translate cs1 = map Ok vs -> translate c = Err e ->
  Page_add_component self (PComponent c) s = (Err e, s)
  /\ fst (Page_add_component self (PSeq (map PComponent (cs1 ++ c :: cs2))) s) = Err e
  /\ Page__content self
       (snd (Page_add_component self (PSeq (map PComponent (cs1 ++ c :: cs2))) s))
     = (Page__content self s ++ vs)%list
  /\ Page___len__ self
       (snd (Page_add_component self (PSeq (map PComponent (cs1 ++ c :: cs2))) s))
     = (Page___len__ self s + Z.of_nat (length cs1))%Z.
Proof.
  intros Hs Hvs He.
  destruct (loop_stops self cs1 vs c e cs2 s Hvs He) as [Hfst Hpre].
  assert (Hlen : length vs = length cs1)
    by (apply (f_equal (@length _)) in Hvs; rewrite !length_map in Hvs; congruence).
  pose proof (add_component_gains self (PSeq (map PComponent (cs1 ++ c :: cs2))) s Hs)
    as [Hg _].
  assert (Happ : appended (PSeq (map PComponent (cs1 ++ c :: cs2))) = vs).
  { unfold appended. cbn [sequence_items]. rewrite all_components. exact Hpre. }
  rewrite Happ in Hg.
  split; [|split; [|split]].
  - rewrite add_component_component, append_translated_run. cbn [call_translate].
    rewrite He. reflexivity.
  - rewrite (add_component_sequence self (PSeq (map PComponent (cs1 ++ c :: cs2))) _ s
               eq_refl), all_components.
    destruct (for_each _ (append_translated self) s) as [[u|e0] s'];
      cbn [fst] in *; congruence.
  - exact Hg.
  - unfold Page___len__. rewrite Hg, length_app, Hlen. lia.
Qed.

Lemma add_component_render_failure_witness :
  Page__content 0
    (snd (Page_add_component 0
            (PSeq (map PComponent
                     ([TextComponent "a" plain]
                      ++ TranslatableComponent "k" None None plain
                         :: [TextComponent "z" plain])))
            (mkStore [[VStr EmptyString]] [] [])))
  = [VStr EmptyString; VDict [("text", VStr "a"); ("type", VStr "text")]].
Proof.
  exact (proj1 (proj2 (proj2
           (add_component_render_failure 0 [TextComponent "a" plain]
              [VDict [("text", VStr "a"); ("type", VStr "text")]]
              (TranslatableComponent "k" None None plain) TypeError_mapping
              [TextComponent "z" plain] (mkStore [[VStr EmptyString]] [] [])
              (Nat.lt_0_succ 0) eq_refl eq_refl)))).
Defined.

(** X11: a component that renders can be replaced by the
    [RawComponent] of its rendering: [add_component] gives the same
    result and the same store for both; and [add_component] of a raw
    component never raises and appends the wrapped value as it is. *)
Theorem RawComponent_passes_through (self : nat) (c : component) (v : value)
    (s : store) :
  (translate c = Ok v ->
   Page_add_component self (PComponent c) s
   = Page_add_component self (PComponent (RawComponent v)) s)
  /\ Page_add_component self (PComponent (RawComponent v)) s
     = (Ok self, mkStore (update_at self (fun x => (x ++ [v])%list) (page_objs s))
                   (book_objs s) (list_objs s)).
Proof.
  split.
  - intros H. rewrite !add_component_component, !append_translated_run.
    cbn [call_translate translate]. rewrite H. reflexivity.
  - rewrite add_component_component, append_translated_run. reflexivity.
Qed.

Lemma RawComponent_passes_through_witness :
  Page_add_component 0 (PComponent (TextComponent "a" plain))
    (mkStore [[VStr EmptyString]] [] [])
  = Page_add_component 0
      (PComponent (RawComponent (VDict [("text", VStr "a"); ("type", VStr "text")])))
      (mkStore [[VStr EmptyString]] [] []).
Proof.
  exact (proj1 (RawComponent_passes_through 0 (TextComponent "a" plain) _
                  (mkStore [[VStr EmptyString]] [] [])) eq_refl).
Defined.

(** *** What the constructor and [+] of a page change *)

Lemma init_loop_only (self : nat) (l : list pyobj) (s : store) :
  only_page self s
    (snd (for_each l (fun component => bind (Page_add_component self component)
                                         (fun _ => ret tt)) s)).
Proof.
  revert s. induction l as [|x rest IH]; intros s; cbn [for_each].
  - apply only_page_same.
  - unfold bind at 1 2. unfold ret at 1.
    pose proof (add_component_only self x s) as Hx.
    destruct (Page_add_component self x s) as [[r|e] s1]; cbn [snd] in *.
    + exact (only_page_then _ _ _ _ Hx (IH s1)).
    + exact Hx.
Qed.

(** The constructor creates one page object, at the next reference, and
    writes to that object alone. *)
Lemma Page___init___only (content : option (list pyobj)) (s s' : store)
    (r : res nat) :
  Page___init__ content s = (r, s') ->
  only_page (length (page_objs s))
    (mkStore (page_objs s ++ [[VStr EmptyString]])%list (book_objs s) (list_objs s))
    s'
  /\ forall q, r = Ok q -> q = length (page_objs s).
Proof.
  unfold Page___init__. unfold bind at 1 2.
  set (s1 := mkStore (page_objs s ++ [[VStr EmptyString]])%list (book_objs s)
               (list_objs s)).
  assert (Hnone : ret (length (page_objs s)) s1 = (r, s') ->
                  only_page (length (page_objs s)) s1 s'
                  /\ forall q, r = Ok q -> q = length (page_objs s)).
  { unfold ret. intros H. injection H as <- <-. split; [apply only_page_same|].
    intros q Hq. injection Hq as <-. reflexivity. }
  destruct content as [[|x l]|]; try exact Hnone.
  pose proof (init_loop_only (length (page_objs s)) (x :: l) s1) as Hl.
  destruct (for_each (x :: l) _ s1) as [[u|e] s2]; cbn [fst snd] in *.
  - unfold ret. intros H. injection H as <- <-. split; [exact Hl|].
    intros q Hq. injection Hq as <-. reflexivity.
  - intros H. injection H as <- <-. split; [exact Hl | discriminate].
Qed.

(** [add_component] returns its receiver. *)
Lemma add_component_returns_self (self : nat) (other : pyobj) (s : store) (q : nat) :
  fst (Page_add_component self other s) = Ok q -> q = self.
Proof.
  destruct (isinstance_BaseComponent other) eqn:Hb.
  - destruct other; try discriminate. rewrite add_component_component.
    destruct (append_translated self (PComponent c) s) as [[u|e] s']; cbn; congruence.
  - destruct (sequence_items other) as [items|] eqn:Hi.
    + rewrite (add_component_sequence _ _ _ _ Hi).
      destruct (forallb isinstance_BaseComponent items); [|discriminate].
      destruct (for_each items (append_translated self) s) as [[u|e] s']; cbn;
        congruence.
    + rewrite (add_component_other _ _ _ Hb Hi). discriminate.
Qed.

(** X12: whatever it returns, [Page.__add__] creates one page object
    and changes no book, no list of pages and no page that existed,
    the receiver included; a page it returns is the new object. *)
Theorem Page___add___keeps_pages (self : nat) (other : pyobj) (s : store) :
  let r := Page___add__ self other s in
  book_objs (snd r) = book_objs s
  /\ list_objs (snd r) = list_objs s
  /\ length (page_objs (snd r)) = S (length (page_objs s))
  /\ (forall p, (p < length (page_objs s))%nat ->
                Page__content p (snd r) = Page__content p s)
  /\ (forall q, fst r = Ok q -> q = length (page_objs s)).
Proof.
  cbn zeta. destruct (Page___add__ self other s) as [r s'] eqn:Hadd. cbn [fst snd].
  unfold Page___add__ in Hadd. unfold bind at 1 in Hadd.
  destruct (Page___init__ (Some (map PVal (Page__content self s))) s)
    as [r0 s2] eqn:Hinit.
  destruct (Page___init___only _ _ _ _ Hinit) as [(B1 & O1 & L1 & C1) Hq].
  assert (Hold : forall p, (p < length (page_objs s))%nat ->
                   Page__content p
                     (mkStore (page_objs s ++ [[VStr EmptyString]])%list (book_objs s)
                        (list_objs s))
                   = Page__content p s).
  { intros p Hp. unfold Page__content. cbn [page_objs]. apply app_nth1, Hp. }
  cbn [page_objs book_objs list_objs] in *. rewrite length_app in L1.
  cbn [length] in L1.
  destruct r0 as [left|e].
  - specialize (Hq _ eq_refl). subst left.
    pose proof (add_component_only (length (page_objs s)) other s2)
      as (B2 & O2 & L2 & C2).
    pose proof (add_component_returns_self (length (page_objs s)) other s2) as Hret.
    rewrite Hadd in *. cbn [fst snd] in *.
    repeat split.
    + congruence.
    + congruence.
    + rewrite L2, L1. lia.
    + intros p Hp. rewrite C2 by lia. rewrite C1 by lia. apply Hold, Hp.
    + intros q Hr. exact (Hret _ Hr).
  - injection Hadd as <- <-. repeat split.
    + exact B1.
    + exact O1.
    + rewrite L1. lia.
    + intros p Hp. rewrite C1 by lia. apply Hold, Hp.
    + discriminate.
Qed.

Lemma Page___add___keeps_pages_witness :
  Page__content 0
    (snd (Page___add__ 0 (PComponent (TextComponent "b" plain))
            (mkStore [[VStr EmptyString; VDict [("text", VStr "a")]]] [] [])))
  = [VStr EmptyString; VDict [("text", VStr "a")]].
Proof.
  exact (proj1 (proj2 (proj2 (proj2
           (Page___add___keeps_pages 0 (PComponent (TextComponent "b" plain))
              (mkStore [[VStr EmptyString; VDict [("text", VStr "a")]]] [] [])))))
           0%nat (Nat.lt_0_succ 0)).
Defined.

(** *** Books *)

Lemma pages_append_run (self p : nat) (s : store) :
  (self < length (book_objs s))%nat ->
  pages_append self p s
  = (Ok tt, mkStore (page_objs s) (book_objs s)
              (update_at (_pages (Book_obj self s)) (fun l => (l ++ [p])%list)
                 (list_objs s))).
Proof.
  intros Hs. unfold pages_append, Book_obj.
  destruct (nth_error (book_objs s) self) as [b|] eqn:E.
  - rewrite (nth_error_nth _ _ _ E). reflexivity.
  - apply nth_error_None in E. lia.
Qed.

(** One append to the list of a book: the book has one page more, and
    nothing else is created or changed. *)
Lemma pages_append_pages (self p : nat) (s : store) :
  Book_exists self s ->
  Book__pages self (snd (pages_append self p s)) = (Book__pages self s ++ [p])%list
  /\ book_objs (snd (pages_append self p s)) = book_objs s
  /\ page_objs (snd (pages_append self p s)) = page_objs s
  /\ length (list_objs (snd (pages_append self p s))) = length (list_objs s).
Proof.
  intros [Hs Hl]. rewrite (pages_append_run _ _ _ Hs). cbn [snd].
  unfold Book__pages, List_items, Book_obj. cbn [book_objs page_objs list_objs].
  repeat split.
  - exact (nth_update_at (fun l => (l ++ [p])%list) [] _ _ Hl).
  - apply length_update_at.
Qed.

Lemma Book_exists_kept (self : nat) (s s' : store) :
  book_objs s' = book_objs s -> length (list_objs s') = length (list_objs s) ->
  Book_exists self s -> Book_exists self s'.
Proof. unfold Book_exists, Book_obj. intros -> ->. tauto. Qed.

(** The loop of [add_page] appends the pages in the order given. *)
Lemma page_loop_appends (self : nat) (items : list pyobj) (s : store) :
  Book_exists self s ->
  let s' := snd (for_each items (append_page self) s) in
  Book__pages self s'
  = (Book__pages self s
     ++ flat_map (fun x => match x with PPage p => [p] | _ => [] end) items)%list
  /\ book_objs s' = book_objs s
  /\ page_objs s' = page_objs s
  /\ length (list_objs s') = length (list_objs s).
Proof.
  revert s. induction items as [|x rest IH]; intros s Hs; cbn [for_each flat_map].
  - cbn. rewrite app_nil_r. repeat split.
  - unfold bind.
    assert (Hstep : exists s1,
               append_page self x s = (Ok tt, s1)
               /\ Book__pages self s1
                  = (Book__pages self s
                     ++ match x with PPage p => [p] | _ => [] end)%list
               /\ book_objs s1 = book_objs s
               /\ page_objs s1 = page_objs s
               /\ length (list_objs s1) = length (list_objs s)).
    { destruct x; cbn [append_page];
        try (exists s; unfold ret; rewrite app_nil_r; repeat split).
      exists (snd (pages_append self ref s)).
      destruct (pages_append_pages self ref s Hs) as (P & B & O & L).
      rewrite (pages_append_run _ _ _ (proj1 Hs)) in *. cbn [snd] in *.
      repeat split; assumption. }
    destruct Hstep as (s1 & -> & P1 & B1 & O1 & L1).
    destruct (IH s1 (Book_exists_kept _ _ _ B1 L1 Hs)) as (P2 & B2 & O2 & L2).
    cbn zeta in *. repeat split; try congruence.
    rewrite P2, P1. symmetry. apply app_assoc.
Qed.

Lemma add_page_page (self p : nat) (s : store) :
  Book_add_page self (PPage p) s = (Ok self, snd (pages_append self p s)).
Proof.
  unfold Book_add_page, bind, ret. cbn [isinstance_Page isinstance_Sequence
    sequence_items orb negb append_page].
  unfold pages_append. destruct (nth_error (book_objs s) self); reflexivity.
Qed.

Lemma add_page_other (self : nat) (page : pyobj) (s : store) :
  isinstance_Page page = false -> sequence_items page = None ->
  Book_add_page self page s = (Err ValueError_supply, s).
Proof.
  intros Hp H. unfold Book_add_page, isinstance_Sequence. rewrite H, Hp. reflexivity.
Qed.

Lemma added_pages_not_page (page : pyobj) :
  isinstance_Page page = false ->
  added_pages page
  = match sequence_items page with
    | Some items =>
        if forallb isinstance_Page items
        then flat_map (fun x => match x with PPage p => [p] | _ => [] end) items
        else []
    | None => []
    end.
Proof. destruct page; try reflexivity. discriminate. Qed.

Lemma all_pages (ps : list nat) : forallb isinstance_Page (map PPage ps) = true.
Proof. induction ps; cbn; auto. Qed.

Lemma pages_of_pages (ps : list nat) :
  flat_map (fun x => match x with PPage p => [p] | _ => [] end) (map PPage ps) = ps.
Proof. induction ps as [|p ps IH]; cbn; [reflexivity | now rewrite IH]. Qed.

Lemma append_stored_step (n self lst i : nat) (s : store) :
  append_stored (S n) self lst i s
  = match nth_error (List_items lst s) i with
    | None => Some s
    | Some p => append_stored n self lst (S i) (snd (pages_append self p s))
    end.
Proof. reflexivity. Qed.

(** A list object other than the book's own is not changed by the
    appends: the loop over it makes the appends of the sequence of its
    items, and ends. *)
Lemma append_stored_other (self lst : nat) (rest : list nat) (i : nat) (s : store) :
  Book_exists self s -> lst <> _pages (Book_obj self s) ->
  skipn i (List_items lst s) = rest ->
  append_stored (S (length rest)) self lst i s
  = Some (snd (for_each (map PPage rest) (append_page self) s)).
Proof.
  revert i s. induction rest as [|p rest IH]; intros i s Hs Hne Hskip.
  - rewrite append_stored_step. cbn [map for_each].
    assert (E : nth_error (List_items lst s) i = None).
    { apply nth_error_None. 
      destruct (Nat.le_gt_cases (length (List_items lst s)) i) as [H|H]; [exact H|].
      apply (f_equal (@length _)) in Hskip. rewrite length_skipn in Hskip.
      cbn in Hskip. lia. }
    rewrite E. reflexivity.
  - cbn [length]. rewrite append_stored_step.
    assert (E : nth_error (List_items lst s) i = Some p).
    { rewrite <- (firstn_skipn i (List_items lst s)) at 1. rewrite Hskip.
      assert (Hi : length (firstn i (List_items lst s)) = i).
      { apply firstn_length_le.
        apply (f_equal (@length _)) in Hskip. rewrite length_skipn in Hskip.
        cbn in Hskip. lia. }
      rewrite nth_error_app2 by lia. rewrite Hi, Nat.sub_diag. reflexivity. }
    rewrite E.
    destruct (pages_append_pages self p s Hs) as (P & B & O & L).
    assert (Hsame : List_items lst (snd (pages_append self p s)) = List_items lst s).
    { rewrite (pages_append_run _ _ _ (proj1 Hs)). cbn [snd].
      unfold List_items. cbn [list_objs]. apply nth_update_at_other. congruence. }
    rewrite IH.
    + cbn [map for_each append_page]. unfold bind.
      rewrite (pages_append_run _ _ _ (proj1 Hs)). reflexivity.
    + exact (Book_exists_kept _ _ _ B L Hs).
    + unfold Book_obj in *. rewrite B. exact Hne.
    + rewrite Hsame.
      change (S i) with (1 + i)%nat. rewrite <- skipn_skipn, Hskip. reflexivity.
Qed.

(** Over the book's own list the loop never reaches the end: each step
    appends what it read. *)
Lemma append_stored_own (steps : nat) (self i : nat) (s : store) :
  Book_exists self s -> (i < length (Book__pages self s))%nat ->
  append_stored steps self (_pages (Book_obj self s)) i s = None.
Proof.
  revert i s. induction steps as [|n IH]; intros i s Hs Hi.
  - reflexivity.
  - rewrite append_stored_step. fold (Book__pages self s).
    destruct (nth_error (Book__pages self s) i) as [p|] eqn:E.
    + destruct (pages_append_pages self p s Hs) as (P & B & O & L).
      assert (Hown : _pages (Book_obj self (snd (pages_append self p s)))
                     = _pages (Book_obj self s))
        by (unfold Book_obj; now rewrite B).
      rewrite <- Hown. apply IH.
      * exact (Book_exists_kept _ _ _ B L Hs).
      * rewrite P, length_app. cbn. lia.
    + apply nth_error_None in E. lia.
Qed.

(** X13: on a book of the store, [add_page] appends to the book's list
    the page it is given, or the pages of a sequence of pages in their
    order, and returns the receiver; the length of the book grows by
    their number; it changes no page and no book object.  With
    anything else, a component or a sequence with an item that is not
    a page, it raises a [ValueError] and changes nothing.  Given a
    list object that is not the book's own list, it does what it does
    on the sequence of the list's items.  Given the book's own list,
    not empty, it never returns: the loop appends to the list it goes
    over; given the book's own list when it is empty, it returns the
    receiver and changes nothing. *)
Theorem Book_add_page_appends (self : nat) (page : pyobj) (s : store) :
  Book_exists self s ->
  let r := Book_add_page self page s in
  Book__pages self (snd r) = (Book__pages self s ++ added_pages page)%list
  /\ Book___len__ self (snd r)
     = (Book___len__ self s + Z.of_nat (length (added_pages page)))%Z
  /\ book_objs (snd r) = book_objs s
  /\ page_objs (snd r) = page_objs s
  /\ (if isinstance_Page page || is_sequence_page page
      then fst r = Ok self
      else exists e, (e = ValueError_supply \/ e = ValueError_element) /\ r = (Err e, s))
  /\ (forall lst,
        lst <> _pages (Book_obj self s) ->
        Book_add_page_stored (S (length (List_items lst s))) self lst s
        = Some (Book_add_page self (PSeq (map PPage (List_items lst s))) s))
  /\ (Book__pages self s <> [] ->
      forall steps,
        Book_add_page_stored steps self (_pages (Book_obj self s)) s = None)
  /\ (Book__pages self s = [] ->
      forall steps,
        Book_add_page_stored (S steps) self (_pages (Book_obj self s)) s
        = Some (Ok self, s)).
Proof.
  intros Hs. cbn zeta.
  assert (Hempty : Book__pages self s = [] ->
                   forall steps,
                     Book_add_page_stored (S steps) self (_pages (Book_obj self s)) s
                     = Some (Ok self, s)).
  { intros He steps. unfold Book_add_page_stored. rewrite append_stored_step.
    fold (Book__pages self s). rewrite He. reflexivity. }
  assert (Hlen : forall s', Book__pages self s'
                            = (Book__pages self s ++ added_pages page)%list ->
                   Book___len__ self s'
                   = (Book___len__ self s + Z.of_nat (length (added_pages page)))%Z).
  { intros s' H. unfold Book___len__. rewrite H, length_app. lia. }
  assert (Hstored :
            (forall lst,
               lst <> _pages (Book_obj self s) ->
               Book_add_page_stored (S (length (List_items lst s))) self lst s
               = Some (Book_add_page self (PSeq (map PPage (List_items lst s))) s))
            /\ (Book__pages self s <> [] ->
                forall steps,
                  Book_add_page_stored steps self (_pages (Book_obj self s)) s = None)).
  { split.
    - intros lst Hne. unfold Book_add_page_stored.
      rewrite (append_stored_other self lst (List_items lst s) 0 s Hs Hne eq_refl).
      rewrite (add_page_sequence self (PSeq (map PPage (List_items lst s))) _ s eq_refl).
      rewrite all_pages. reflexivity.
    - intros Hne steps. unfold Book_add_page_stored.
      rewrite (append_stored_own steps self 0 s Hs); [reflexivity|].
      destruct (Book__pages self s); [contradiction | cbn; lia]. }
  destruct Hstored as [Hother Hown].
  destruct (isinstance_Page page) eqn:Hp.
  - destruct page; try discriminate. cbn [orb].
    rewrite add_page_page. cbn [fst snd added_pages].
    destruct (pages_append_pages self ref s Hs) as (P & B & O & L).
    repeat split; auto.
  - cbn [orb]. unfold is_sequence_page. rewrite (added_pages_not_page _ Hp) in *.
    destruct (sequence_items page) as [items|] eqn:Hi.
    + rewrite (add_page_sequence _ _ _ _ Hi).
      destruct (forallb isinstance_Page items); cbn [fst snd].
      * destruct (page_loop_appends self items s Hs) as (P & B & O & _).
        repeat split; auto.
      * rewrite app_nil_r in *. repeat split; auto.
        exists ValueError_element. split; [now right | reflexivity].
    + rewrite (add_page_other _ _ _ Hp Hi). cbn [fst snd].
      rewrite app_nil_r in *. repeat split; auto.
      exists ValueError_supply. split; [now left | reflexivity].
Qed.

Lemma Book_add_page_appends_witness :
  Book__pages 0 (snd (Book_add_page 0 (PSeq [PPage 1; PPage 0])
                        (mkStore [[VStr EmptyString]; [VStr EmptyString]]
                           [mkBook "A" "T" 0] [[0%nat]])))
  = [0; 1; 0]%nat
  /\ Book_add_page_stored 5 0 0
       (mkStore [[VStr EmptyString]; [VStr EmptyString]] [mkBook "A" "T" 0] [[0%nat]])
     = None.
Proof.
  assert (H : Book_exists 0 (mkStore [[VStr EmptyString]; [VStr EmptyString]]
                               [mkBook "A" "T" 0] [[0%nat]]))
    by (split; cbn; lia).
  split.
  - exact (proj1 (Book_add_page_appends 0 (PSeq [PPage 1; PPage 0]) _ H)).
  - refine (proj1 (proj2 (proj2 (proj2 (proj2 (proj2 (proj2
              (Book_add_page_appends 0 (PSeq []) _ H))))))) _ 5%nat).
    discriminate.
Defined.

(** A rendered page has no single quote, so [repr] puts it between
    single quotes. *)
Lemma repr_str_Page_translate (p : nat) (s : store) :
  repr_str (Page_translate p s)
  = String squote (repr_chars squote (Page_translate p s) ++ chr squote).
Proof.
  unfold repr_str, repr_quote, Page_translate.
  rewrite (str_replace_removes squote dquote _ eq_refl). reflexivity.
Qed.

(** X14: a book renders as the struct literal of its author and title
    between double quotes, unescaped, and the list of its pages, each
    rendered page between single quotes and never between double
    quotes, with the escapes of [repr]; a book without pages renders
    the empty list. *)
Theorem Book_translate_quotes_pages (self : nat) (s : store) :
  Book_translate self s
  = "{" ++ ("author:" ++ quoted (_author (Book_obj self s))
            ++ ", title: " ++ quoted (_title (Book_obj self s))
            ++ ", pages: "
            ++ ("[" ++ String.concat ", "
                         (map (fun p => String squote
                                          (repr_chars squote (Page_translate p s)
                                           ++ chr squote))
                            (Book__pages self s))
                 ++ "]"))
        ++ "}"
  /\ (Book__pages self s = [] ->
      Book_translate self s
      = "{" ++ ("author:" ++ quoted (_author (Book_obj self s))
                ++ ", title: " ++ quoted (_title (Book_obj self s))
                ++ ", pages: []")
            ++ "}").
Proof.
  split.
  - unfold Book_translate, quoted. cbn [py_repr]. rewrite map_map.
    rewrite (map_ext _ _ (fun p => repr_str_Page_translate p s)).
    rewrite !str_app_assoc. reflexivity.
  - intros H. unfold Book_translate, quoted. rewrite H.
    rewrite !str_app_assoc. reflexivity.
Qed.

Lemma Book_translate_quotes_pages_witness :
  Book_translate 0 (mkStore [] [mkBook "A" "T" 0] [[]])
  = "{author:" ++ quoted "A" ++ ", title: " ++ quoted "T" ++ ", pages: []}".
Proof.
  exact (proj2 (Book_translate_quotes_pages 0 (mkStore [] [mkBook "A" "T" 0] [[]]))
           eq_refl).
Defined.

(** *** Pages are held by reference *)

(** What a call of [add_component] returns and what it does to the
    pages depend on its arguments alone, not on the store. *)
Lemma append_translated_form (self : nat) (item : pyobj) :
  exists (r : res unit) (F : list (list value) -> list (list value)),
    forall s, append_translated self item s
              = (r, mkStore (F (page_objs s)) (book_objs s) (list_objs s)).
Proof.
  destruct (call_translate item) as [v|e] eqn:E.
  - exists (Ok tt), (update_at self (fun c => (c ++ [v])%list)). intros s.
    rewrite append_translated_run, E. reflexivity.
  - exists (Err e), (fun l => l). intros [ps bs ls].
    rewrite append_translated_run, E. reflexivity.
Qed.

Lemma loop_form (self : nat) (items : list pyobj) :
  exists (r : res unit) (F : list (list value) -> list (list value)),
    forall s, for_each items (append_translated self) s
              = (r, mkStore (F (page_objs s)) (book_objs s) (list_objs s)).
Proof.
  induction items as [|x rest (r2 & F2 & H2)]; cbn [for_each].
  - exists (Ok tt), (fun l => l). intros [ps bs ls]. reflexivity.
  - destruct (append_translated_form self x) as (r1 & F1 & H1).
    destruct r1 as [[]|e].
    + exists r2, (fun l => F2 (F1 l)). intros s. unfold bind. rewrite H1, H2. reflexivity.
    + exists (Err e), F1. intros s. unfold bind. rewrite H1. reflexivity.
Qed.

Lemma add_component_form (self : nat) (other : pyobj) :
  exists (r : res nat) (F : list (list value) -> list (list value)),
    forall s, Page_add_component self other s
              = (r, mkStore (F (page_objs s)) (book_objs s) (list_objs s)).
Proof.
  destruct (isinstance_BaseComponent other) eqn:Hb.
  - destruct other; try discriminate.
    destruct (append_translated_form self (PComponent c)) as (r1 & F1 & H1).
    destruct r1 as [[]|e].
    + exists (Ok self), F1. intros s. rewrite add_component_component, H1. reflexivity.
    + exists (Err e), F1. intros s. rewrite add_component_component, H1. reflexivity.
  - destruct (sequence_items other) as [items|] eqn:Hi.
    + destruct (forallb isinstance_BaseComponent items) eqn:Hall.
      * destruct (loop_form self items) as (r1 & F1 & H1).
        destruct r1 as [[]|e].
        -- exists (Ok self), F1. intros s.
           rewrite (add_component_sequence _ _ _ _ Hi), Hall, H1. reflexivity.
        -- exists (Err e), F1. intros s.
           rewrite (add_component_sequence _ _ _ _ Hi), Hall, H1. reflexivity.
      * exists (Err ValueError_element), (fun l => l). intros [ps bs ls].
        rewrite (add_component_sequence _ _ _ _ Hi), Hall. reflexivity.
    + exists (Err ValueError_supply), (fun l => l). intros [ps bs ls].
      apply add_component_other; assumption.
Qed.

(** X15: a book holds its pages by reference: adding a page to a book
    and then appending to the page leaves the same store, and so the
    same rendering of the book, as appending first and adding the page
    afterwards; what is appended to a page after it was added to the
    book is in the book. *)
Theorem page_in_book_by_reference (b p : nat) (other : pyobj) (s : store) :
  let added_first :=
    snd (Page_add_component p other (snd (Book_add_page b (PPage p) s))) in
  let appended_first :=
    snd (Book_add_page b (PPage p) (snd (Page_add_component p other s))) in
  added_first = appended_first
  /\ Book_translate b added_first = Book_translate b appended_first
  /\ (Book_exists b s -> (p < length (page_objs s))%nat ->
      Book__pages b added_first = (Book__pages b s ++ [p])%list
      /\ Page__content p added_first = (Page__content p s ++ appended other)%list).
Proof.
  cbn zeta.
  destruct (add_component_form p other) as (r & F & HF).
  assert (Heq : snd (Page_add_component p other (snd (Book_add_page b (PPage p) s)))
                = snd (Book_add_page b (PPage p) (snd (Page_add_component p other s)))).
  { rewrite !add_page_page, !HF. cbn [snd]. unfold pages_append.
    cbn [book_objs page_objs list_objs].
    destruct (nth_error (book_objs s) b); reflexivity. }
  split; [exact Heq|]. split; [now rewrite Heq|].
  intros Hb Hp. rewrite Heq, add_page_page. cbn [snd].
  destruct (add_component_only p other s) as (B & O & L & _).
  destruct (add_component_gains p other s Hp) as [Hg _].
  assert (Hb' : Book_exists b (snd (Page_add_component p other s)))
    by (apply (Book_exists_kept _ _ _ B (f_equal (@length _) O) Hb)).
  destruct (pages_append_pages b p _ Hb') as (P & B2 & O2 & L2).
  split.
  - rewrite P. unfold Book__pages, List_items, Book_obj. rewrite B, O. reflexivity.
  - unfold Page__content in *. rewrite O2. exact Hg.
Qed.

Lemma page_in_book_by_reference_witness :
  Page__content 0
    (snd (Page_add_component 0 (PComponent (TextComponent "late" plain))
            (snd (Book_add_page 0 (PPage 0)
                    (mkStore [[VStr EmptyString]] [mkBook "A" "T" 0] [[]])))))
  = [VStr EmptyString; VDict [("text", VStr "late"); ("type", VStr "text")]].
Proof.
  refine (proj2 (proj2 (proj2
            (page_in_book_by_reference 0 0 (PComponent (TextComponent "late" plain))
               (mkStore [[VStr EmptyString]] [mkBook "A" "T" 0] [[]])))
            _ (Nat.lt_0_succ 0))).
  split; cbn; lia.
Defined.

(** *** The constructor of a page *)



(** X17: on a page that holds the placeholder alone, [+] is [Page()]
    followed by [add_component] on the new page: the constructor
    passes over the placeholder, an empty sequence, and the new page
    gets what the argument appends, or the call raises what
    [add_component] raises. *)
Theorem Page___add___on_empty_page (self : nat) (other : pyobj) (s : store) :
  Page__content self s = [VStr EmptyString] ->
  Page___add__ self other s
  = Page_add_component (length (page_objs s)) other (snd (Page___init__ None s))
  /\ Page__content (length (page_objs s)) (snd (Page___add__ self other s))
     = VStr EmptyString :: appended other.
Proof.
  intros H.
  assert (Heq : Page___add__ self other s
                = Page_add_component (length (page_objs s)) other
                    (snd (Page___init__ None s))).
  { unfold Page___add__. unfold bind at 1. rewrite H. reflexivity. }
  split; [exact Heq|]. rewrite Heq, Page___init___None. cbn [snd].
  set (s1 := mkStore (page_objs s ++ [[VStr EmptyString]])%list (book_objs s) (list_objs s)).
  assert (Hs1 : (length (page_objs s) < length (page_objs s1))%nat)
    by (cbn; rewrite length_app; cbn; lia).
  destruct (add_component_gains _ other s1 Hs1) as [Hg _].
  rewrite Hg. unfold Page__content, s1. cbn [page_objs].
  rewrite new_object_lookup. reflexivity.
Qed.

Lemma Page___add___on_empty_page_witness :
  Page__content 1
    (snd (Page___add__ 0 (PSeq [PComponent (TextComponent "a" plain);
                                PComponent (TextComponent "b" plain)])
            (mkStore [[VStr EmptyString]] [] [])))
  = [VStr EmptyString; VDict [("text", VStr "a"); ("type", VStr "text")];
     VDict [("text", VStr "b"); ("type", VStr "text")]].
Proof.
  exact (proj2 (Page___add___on_empty_page 0
                  (PSeq [PComponent (TextComponent "a" plain);
                         PComponent (TextComponent "b" plain)])
                  (mkStore [[VStr EmptyString]] [] []) eq_refl)).
Defined.

(** *** The list a book is constructed with *)

Lemma pages_append_books (self p : nat) (s : store) :
  book_objs (snd (pages_append self p s)) = book_objs s.
Proof. unfold pages_append. destruct (nth_error (book_objs s) self); reflexivity. Qed.

Lemma pages_append_other_list (self p k : nat) (s : store) :
  k <> _pages (Book_obj self s) ->
  List_items k (snd (pages_append self p s)) = List_items k s.
Proof.
  intros Hk. unfold pages_append, Book_obj in *.
  destruct (nth_error (book_objs s) self) as [b|] eqn:E; [|reflexivity].
  rewrite (nth_error_nth _ _ _ E) in Hk. cbn [snd]. unfold List_items.
  cbn [list_objs]. apply nth_update_at_other. congruence.
Qed.

Lemma page_loop_other_list (self k : nat) (items : list pyobj) (s : store) :
  k <> _pages (Book_obj self s) ->
  List_items k (snd (for_each items (append_page self) s)) = List_items k s.
Proof.
  revert s. induction items as [|x rest IH]; intros s Hk; [reflexivity|].
  cbn [for_each]. unfold bind.
  destruct x; cbn [append_page]; unfold ret; try (apply IH, Hk).
  pose proof (pages_append_books self ref s) as B.
  pose proof (pages_append_other_list self ref k s Hk) as L.
  destruct (pages_append self ref s) as [[[]|e] s1] eqn:E; cbn [snd] in *.
  - rewrite IH; [exact L|]. unfold Book_obj in *. rewrite B. exact Hk.
  - exact L.
Qed.

(** [add_page] changes no list but the one the receiver holds. *)
Lemma add_page_other_list (self k : nat) (page : pyobj) (s : store) :
  k <> _pages (Book_obj self s) ->
  List_items k (snd (Book_add_page self page s)) = List_items k s.
Proof.
  intros Hk. destruct (isinstance_Page page) eqn:Hp.
  - destruct page; try discriminate. rewrite add_page_page. cbn [snd].
    apply pages_append_other_list, Hk.
  - destruct (sequence_items page) as [items|] eqn:Hi.
    + rewrite (add_page_sequence _ _ _ _ Hi).
      destruct (forallb isinstance_Page items); cbn [snd]; [|reflexivity].
      apply page_loop_other_list, Hk.
    + rewrite (add_page_other _ _ _ Hp Hi). reflexivity.
Qed.

(** [add_page] appends to the list the receiver holds and changes no
    book object. *)
Lemma add_page_grows (self : nat) (page : pyobj) (s : store) :
  Book_exists self s ->
  Book__pages self (snd (Book_add_page self page s))
  = (Book__pages self s ++ added_pages page)%list
  /\ book_objs (snd (Book_add_page self page s)) = book_objs s.
Proof.
  intros Hs. destruct (isinstance_Page page) eqn:Hp.
  - destruct page; try discriminate. rewrite add_page_page. cbn [snd added_pages].
    destruct (pages_append_pages self ref s Hs) as (P & B & _). split; assumption.
  - rewrite (added_pages_not_page _ Hp).
    destruct (sequence_items page) as [items|] eqn:Hi.
    + rewrite (add_page_sequence _ _ _ _ Hi).
      destruct (forallb isinstance_Page items); cbn [snd].
      * destruct (page_loop_appends self items s Hs) as (P & B & _). split; assumption.
      * rewrite app_nil_r. split; reflexivity.
    + rewrite (add_page_other _ _ _ Hp Hi). cbn [snd]. rewrite app_nil_r.
      split; reflexivity.
Qed.

(** Two books that hold one list have the same pages. *)
Lemma same_list_same_pages (b o : nat) (s : store) :
  _pages (Book_obj o s) = _pages (Book_obj b s) -> Book__pages o s = Book__pages b s.
Proof. unfold Book__pages. intros ->. reflexivity. Qed.

Lemma old_book_kept (o : nat) (x : book_obj) (s s' : store) :
  (o < length (book_objs s))%nat ->
  book_objs s' = (book_objs s ++ [x])%list -> Book_obj o s' = Book_obj o s.
Proof. intros Ho E. unfold Book_obj. rewrite E. apply app_nth1, Ho. Qed.

Lemma new_book_kept (x : book_obj) (s s' : store) :
  book_objs s' = (book_objs s ++ [x])%list -> Book_obj (length (book_objs s)) s' = x.
Proof. intros E. unfold Book_obj. rewrite E. apply new_object_lookup. Qed.

Lemma held_list_exists (l : nat) (s : store) :
  List_items l s <> [] -> (l < length (list_objs s))%nat.
Proof.
  intros H. destruct (Nat.lt_ge_cases l (length (list_objs s))) as [Hl|Hl]; [exact Hl|].
  exfalso. apply H. unfold List_items. apply nth_overflow, Hl.
Qed.

(** The constructor of a book with a list that is not empty: one new
    book object, holding that list. *)
Lemma Book___init___given (a t : string) (l : nat) (s : store) :
  List_items l s <> [] ->
  Book___init__ (Some a) (Some t) (Some l) s
  = (Ok (length (book_objs s)),
     mkStore (page_objs s) (book_objs s ++ [mkBook a t l])%list (list_objs s)).
Proof.
  intros H. unfold Book___init__, pages_or_new, bind.
  destruct (List_items l s); [contradiction | reflexivity].
Qed.

(** The constructor of a book with no list or an empty one: a new
    book object, holding a new empty list. *)
Lemma Book___init___fresh (a t : string) (pages : option nat) (s : store) :
  match pages with Some l => List_items l s | None => [] end = [] ->
  Book___init__ (Some a) (Some t) pages s
  = (Ok (length (book_objs s)),
     mkStore (page_objs s) (book_objs s ++ [mkBook a t (length (list_objs s))])%list
       (list_objs s ++ [[]])%list).
Proof.
  intros H. unfold Book___init__, pages_or_new, bind, new_list.
  destruct pages as [l|]; [rewrite H|]; reflexivity.
Qed.

(** X18: the constructor of a book creates one book object, with the
    author and the title given, and changes no page and no other book.
    Given a list that is not empty the book keeps that very list and
    creates none: a book that already holds the list and the new book
    have the same pages from then on, a page added to either being
    added to both.  Given no list, or an empty one, the book holds a
    new empty list, and adding pages to it changes the pages of no
    other book. *)
Theorem Book___init___keeps_list (a t : string) (pages : option nat) (s : store) :
  let r := Book___init__ (Some a) (Some t) pages s in
  let b := length (book_objs s) in
  fst r = Ok b
  /\ book_objs (snd r) = (book_objs s ++ [mkBook a t (_pages (Book_obj b (snd r)))])%list
  /\ page_objs (snd r) = page_objs s
  /\ Book_exists b (snd r)
  /\ Book__pages b (snd r) = match pages with Some l => List_items l s | None => [] end
  /\ (forall l,
        pages = Some l -> List_items l s <> [] ->
        _pages (Book_obj b (snd r)) = l
        /\ list_objs (snd r) = list_objs s
        /\ forall o page,
             Book_exists o s -> _pages (Book_obj o s) = l ->
             Book__pages o (snd (Book_add_page b page (snd r)))
             = (Book__pages o s ++ added_pages page)%list
             /\ Book__pages b (snd (Book_add_page o page (snd r)))
                = (Book__pages o s ++ added_pages page)%list)
  /\ (match pages with Some l => List_items l s | None => [] end = [] ->
      _pages (Book_obj b (snd r)) = length (list_objs s)
      /\ list_objs (snd r) = (list_objs s ++ [[]])%list
      /\ forall o page,
           Book_exists o s ->
           Book__pages o (snd (Book_add_page b page (snd r))) = Book__pages o s).
Proof.
  cbn zeta.
  destruct (match pages with Some l => List_items l s | None => [] end) as [|p0 ps] eqn:E.
  - (* a new list *)
    rewrite (Book___init___fresh a t pages s E). cbn [fst snd].
    set (s1 := mkStore (page_objs s)
                 (book_objs s ++ [mkBook a t (length (list_objs s))])%list
                 (list_objs s ++ [[]])%list).
    assert (Hb : Book_obj (length (book_objs s)) s1 = mkBook a t (length (list_objs s)))
      by (apply (new_book_kept _ s s1); reflexivity).
    assert (Hex : Book_exists (length (book_objs s)) s1).
    { split; [|rewrite Hb]; cbn [s1 book_objs list_objs _pages];
        rewrite length_app; cbn; lia. }
    assert (Hnew : Book__pages (length (book_objs s)) s1 = []).
    { unfold Book__pages. rewrite Hb. cbn [_pages]. unfold List_items.
      cbn [s1 list_objs]. apply new_object_lookup. }
    rewrite Hb. cbn [_pages].
    split; [reflexivity|]. split; [reflexivity|]. split; [reflexivity|].
    split; [exact Hex|]. split; [exact Hnew|]. split.
    + intros l Hl Hne. subst pages. contradiction.
    + intros _. split; [reflexivity|]. split; [reflexivity|].
      intros o page [Ho Hl].
      assert (Hobj : Book_obj o s1 = Book_obj o s)
        by (eapply (old_book_kept o _ s s1 Ho); reflexivity).
      destruct (add_page_grows (length (book_objs s)) page s1 Hex) as [_ B].
      unfold Book__pages.
      assert (Hsame : Book_obj o (snd (Book_add_page (length (book_objs s)) page s1))
                      = Book_obj o s)
        by (unfold Book_obj in *; rewrite B; exact Hobj).
      rewrite Hsame.
      rewrite add_page_other_list by (rewrite Hb; cbn [_pages]; lia).
      unfold List_items. cbn [s1 list_objs]. apply app_nth1, Hl.
  - (* the list given *)
    destruct pages as [l|]; [|discriminate].
    assert (Hne : List_items l s <> []) by (rewrite E; discriminate).
    rewrite (Book___init___given a t l s Hne). cbn [fst snd].
    set (s1 := mkStore (page_objs s) (book_objs s ++ [mkBook a t l])%list (list_objs s)).
    assert (Hb : Book_obj (length (book_objs s)) s1 = mkBook a t l)
      by (apply (new_book_kept _ s s1); reflexivity).
    assert (Hex : Book_exists (length (book_objs s)) s1).
    { split; [|rewrite Hb]; cbn [s1 book_objs list_objs _pages].
      - rewrite length_app. cbn. lia.
      - apply held_list_exists, Hne. }
    assert (Hnew : Book__pages (length (book_objs s)) s1 = p0 :: ps).
    { unfold Book__pages. rewrite Hb. exact E. }
    rewrite Hb. cbn [_pages].
    split; [reflexivity|]. split; [reflexivity|]. split; [reflexivity|].
    split; [exact Hex|]. split; [exact Hnew|]. split; [|discriminate].
    intros l0 Hl0 _. injection Hl0 as <-.
    split; [reflexivity|]. split; [reflexivity|].
    intros o page [Ho Hl] Hheld.
    assert (Hobj : Book_obj o s1 = Book_obj o s)
      by (eapply (old_book_kept o _ s s1 Ho); reflexivity).
    assert (Hold : Book__pages o s = p0 :: ps)
      by (unfold Book__pages; rewrite Hheld; exact E).
    split.
    + destruct (add_page_grows (length (book_objs s)) page s1 Hex) as [P B].
      rewrite (same_list_same_pages (length (book_objs s)) o).
      * rewrite P, Hnew, Hold. reflexivity.
      * unfold Book_obj in *. rewrite B, Hobj, Hb. exact Hheld.
    + assert (Hexo : Book_exists o s1).
      { split; [cbn [s1 book_objs]; rewrite length_app; lia|].
        rewrite Hobj. exact Hl. }
      destruct (add_page_grows o page s1 Hexo) as [P B].
      rewrite (same_list_same_pages o (length (book_objs s))).
      * rewrite P. unfold Book__pages. rewrite Hobj. reflexivity.
      * unfold Book_obj in *. rewrite B, Hobj, Hb. symmetry. exact Hheld.
Qed.

Lemma Book___init___keeps_list_witness :
  Book__pages 0
    (snd (Book_add_page 1 (PPage 0)
            (snd (Book___init__ (Some "B") (Some "U") (Some 0%nat)
                    (mkStore [[VStr EmptyString]] [mkBook "A" "T" 0] [[0%nat]])))))
  = [0; 0]%nat.
Proof.
  assert (H : Book_exists 0 (mkStore [[VStr EmptyString]] [mkBook "A" "T" 0] [[0%nat]]))
    by (split; cbn; lia).
  pose proof (Book___init___keeps_list "B" "U" (Some 0%nat)
                (mkStore [[VStr EmptyString]] [mkBook "A" "T" 0] [[0%nat]]))
    as (_ & _ & _ & _ & _ & Hshare & _).
  destruct (Hshare 0%nat eq_refl) as (_ & _ & Hboth); [discriminate|].
  exact (proj1 (Hboth 0%nat (PPage 0) H eq_refl)).
Defined.

(* ================================================================== *)
(** ** Colour and quoting, as the code has them *)

(** *** The colour in the rendering (C7) *)

(** C7, as the specification has it, fails: the token [red] is
    accepted, yet the nbt component constructed with it and with a
    mapping that has a [color] of its own renders that colour, not the
    token; and the translatable component constructed with it renders
    no mapping at all. *)
Lemma color_replaced_by_payload :
  exists c m t,
    color_accepted (VStr "red") = true
    /\ NbtComponent___init__ [("color", VStr "blue")] (VStr "red") None None None = Ok c
    /\ translate c = Ok (VDict m)
    /\ dict_get "color" m = Some (VStr "blue")
    /\ dict_get "color" m <> Some (VStr "red")
    /\ TranslatableComponent___init__ "k" (VStr "red") None None None None None = Ok t
    /\ translate t = Err TypeError_mapping.
Proof. do 3 eexists. repeat split. discriminate. Qed.

(** A component with base attributes renders a mapping or nothing. *)
Lemma translate_is_dict (c : component) (b : base) (v : value) :
  base_of c = Some b -> translate c = Ok v -> exists m, v = VDict m.
Proof.
  intros Hb Hv. destruct c; cbn in Hb; try discriminate; injection Hb as ->;
    cbn [translate] in Hv;
    destruct (AnyComponent_translate b) as [super|e]; cbn [res_bind] in Hv;
    try discriminate;
    try (injection Hv as <-; eauto; fail).
  - destruct (TranslatableComponent_self_translate translate _fallback _with_json)
      as [own|e]; cbn [res_bind] in Hv; [|discriminate].
    destruct (dict_unpack own); cbn [res_bind] in Hv; [|discriminate].
    injection Hv as <-. eauto.
  - destruct _seperator as [sep|]; [|injection Hv as <-; eauto].
    destruct (translate sep); cbn [res_bind] in Hv; [|discriminate].
    injection Hv as <-. eauto.
Qed.

(** C7, amended: construction accepts a colour token exactly when it
    is absent, one of the 15 palette names (compared as they are
    written), or [#] followed by six hexadecimal digits of either
    case, and fails with the colour error on any other token; for an
    accepted token that is a string, every component of a class with
    base attributes that renders (no translatable component and no
    hover event without contents is reached) renders a mapping, and
    the mapping has the token, unchanged, under the key [color],
    unless the component is an nbt component whose own mapping has a
    [color]: that value is then the one under [color]. *)
Theorem color_contract (token : value) (attr : option StringFormat)
    (hov : option HoverEvent) (clk : option ClickEvent) :
  length COLOR = 15%nat
  /\ (color_accepted token = true ->
      exists b,
        AnyComponent___init__ token attr hov clk = Ok b
        /\ forall s c,
             token = VStr s -> base_of c = Some b -> renders c = true ->
             NoDup (map fst (payload c)) ->
             exists m,
               translate c = Ok (VDict m)
               /\ dict_get "color" m
                  = match payload_color c with
                    | Some v => Some v
                    | None => Some (VStr s)
                    end)
  /\ (color_accepted token = false ->
      exists c, AnyComponent___init__ token attr hov clk = Err (ValueError_color c)).
Proof.
  split; [reflexivity|]. split.
  - intros Hacc. destruct token; try discriminate.
    + (* no colour *)
      eexists. split; [reflexivity|]. discriminate.
    + (* a string *)
      rewrite color_check, Hacc. eexists. split; [reflexivity|].
      intros s' c Hs Hb Hr Hnd. injection Hs as <-.
      pose proof (accepted_color_truthy _ Hacc) as Ht.
      pose proof (translate_renders c) as Hc. rewrite Hr in Hc.
      destruct (translate c) as [v|e] eqn:Hv; [|discriminate].
      destruct (translate_is_dict c _ v Hb Hv) as [m ->].
      exists m. split; [reflexivity|].
      destruct (payload_color c) as [x|] eqn:Hp.
      * (* the caller's colour *)
        destruct c; cbn in Hp, Hb; try discriminate. injection Hb as ->.
        cbn [payload] in Hnd. cbn [translate] in Hv.
        destruct (AnyComponent_translate
                    (Base (Some s) attr hov clk)) as [super|e];
          cbn [res_bind] in Hv; [|discriminate].
        injection Hv as <-. rewrite (dict_get_update "color" _nbt _ Hnd), Hp.
        reflexivity.
      * apply (translate_keeps_color c _ m _ Hb Hp Hv).
        intros m0. apply AnyComponent_translate_color, Ht.
  - intros Hrej. destruct token; try discriminate; try (eexists; reflexivity).
    rewrite color_check, Hrej. eexists. reflexivity.
Qed.

Lemma color_contract_witness :
  exists b m,
    AnyComponent___init__ (VStr "#1aB2c3") None None None = Ok b
    /\ translate (ScoreComponent "n" "o" b) = Ok (VDict m)
    /\ dict_get "color" m = Some (VStr "#1aB2c3").
Proof.
  destruct (color_contract (VStr "#1aB2c3") None None None) as (_ & Hacc & _).
  destruct (Hacc eq_refl) as (b & Hb & Hcol).
  assert (Hbase : b = Base (Some "#1aB2c3") None None None)
    by (cbn in Hb; congruence).
  destruct (Hcol "#1aB2c3" (ScoreComponent "n" "o" b) eq_refl eq_refl)
    as (m & Hm & Hc).
  - subst b. reflexivity.
  - constructor.
  - exists b, m. repeat split; assumption.
Defined.

(** *** Quotes in a rendered page (C9) *)










Lemma escape_squotes_none (t : string) :
  str_contains squote t = false -> escape_squotes t = str_replace squote dquote t.
Proof.
  induction t as [|c t IH]; cbn [str_contains escape_squotes str_replace]; [reflexivity|].
  intros H. apply orb_false_iff in H as [Hc Ht]. rewrite Hc, (IH Ht). reflexivity.
Qed.







